(** * paswitch: the PulseAudio command-line sink switcher (src/paswitch-src/main.c)

    A shallow embedding of [main.c].  The program is a handful of callbacks
    driven by the PulseAudio main loop.  Every function of [main.c] is a
    definition of the same name below, written in a small state monad over a
    [World] that holds the connection, the queue of notifications the loop
    still has to deliver, the text printed so far and the trace of library
    calls the program made.

    libpulse itself is the external collaborator: its entry points are
    modelled after the interface the program relies on (an operation-creating
    call returns a handle or NULL at once and reports its completion later
    through the loop; [pa_context_disconnect] yields a Terminated
    notification), with every answer the service is free to choose taken from
    a [Service] record. *)

From Stdlib Require Import String Ascii List ZArith Lia Bool.
Import ListNotations.
Local Open Scope string_scope.
Local Open Scope Z_scope.

(** ** Data of the PulseAudio API, as [main.c] uses it *)

(** [pa_context_state_t] of <pulse/def.h>. *)
Inductive pa_context_state_t : Type :=
| PA_CONTEXT_UNCONNECTED
| PA_CONTEXT_CONNECTING
| PA_CONTEXT_AUTHORIZING
| PA_CONTEXT_SETTING_NAME
| PA_CONTEXT_READY
| PA_CONTEXT_FAILED
| PA_CONTEXT_TERMINATED.

(** [pa_update_mode_t] of <pulse/def.h>. *)
Inductive pa_update_mode_t : Type :=
| PA_UPDATE_SET
| PA_UPDATE_MERGE
| PA_UPDATE_REPLACE.

(** A [char*]: NULL or a string. *)
Definition cstr : Type := option string.

(** [pa_channel_map] and [pa_cvolume]: a channel count and the per-channel
    entries.  The program only copies them. *)
Record pa_channel_map : Type := { cm_channels : Z; cm_map : list Z }.
Record pa_cvolume : Type := { cv_channels : Z; cv_values : list Z }.

(** [pa_ext_stream_restore_info] of <pulse/ext-stream-restore.h>. *)
Record pa_ext_stream_restore_info : Type := {
  ri_name : string;
  ri_channel_map : pa_channel_map;
  ri_volume : pa_cvolume;
  ri_device : cstr;
  ri_mute : Z
}.

(** A [pa_operation*] that is not NULL: the number of the operation. *)
Definition pa_operation : Type := nat.

(** What the main loop delivers: a connection state change (to the state
    callback), the completion of a set-default-sink or write operation (to
    [success_cb]), one reply of the stream-restore enumeration (to
    [stream_restore_cb], with the user data the read was created with), the
    completion of a drain (to [context_drain_complete]). *)
Inductive loop_event : Type :=
| EvState (st : pa_context_state_t)
| EvSuccess (success : Z)
| EvRestore (info : option pa_ext_stream_restore_info) (eol : Z) (userdata : cstr)
| EvDrained.

(** The library calls of [main.c], with the arguments that vary. *)
Inductive Call : Type :=
| c_mainloop_new
| c_mainloop_get_api
| c_proplist_new
| c_proplist_sets (key value : string)
| c_context_new_with_proplist
| c_proplist_free
| c_context_connect
| c_context_set_state_callback (userdata : cstr)
| c_context_set_default_sink (name : cstr)
| c_ext_stream_restore_read (userdata : cstr)
| c_ext_stream_restore_write (mode : pa_update_mode_t)
    (data : pa_ext_stream_restore_info) (n : Z) (apply_immediately : Z)
| c_context_drain
| c_context_disconnect
| c_operation_unref (o : pa_operation)
| c_context_unref
| c_signal_done
| c_mainloop_free.

(** The answers of the audio service and of the library, fixed per run. *)
Record Service : Type := {
  mainloop_new_ok : bool;          (* pa_mainloop_new() is not NULL *)
  context_new_ok : bool;           (* pa_context_new_with_proplist() is not NULL *)
  connect_ok : bool;               (* pa_context_connect() >= 0 *)
  handshake : list pa_context_state_t;  (* state changes notified after connect *)
  op_created : nat -> bool;        (* the k-th operation requested is created *)
  op_success : nat -> Z;           (* the success flag the k-th operation completes with *)
  enum_fails : bool;               (* the enumeration is answered by an error *)
  records : list pa_ext_stream_restore_info;  (* the stream-restore records *)
  errstr : string;                 (* pa_strerror(pa_context_errno(c)) *)
  poll_error : nat -> bool         (* the k-th loop iteration fails in poll *)
}.

(** The process and its connection. [mainloop], [mainloop_api] and [context],
    the three globals of [main.c], point to the one loop and the one context
    of the world. *)
Record World : Type := {
  ctx_state : pa_context_state_t;  (* pa_context_get_state(context) *)
  state_cb : option cstr;          (* user data of the state callback, once set *)
  pending : list loop_event;       (* notifications not yet delivered *)
  quit_req : option Z;             (* retval of the last mainloop_api->quit *)
  stdout : list string;            (* one entry per printf *)
  calls : list Call;               (* library calls, oldest first *)
  delivered : list loop_event;     (* notifications dispatched, oldest first *)
  n_ops : nat;                     (* operations requested so far *)
  iter : nat                       (* loop iterations so far *)
}.

Definition init_world : World :=
  {| ctx_state := PA_CONTEXT_UNCONNECTED; state_cb := None; pending := [];
     quit_req := None; stdout := []; calls := []; delivered := [];
     n_ops := 0%nat; iter := 0%nat |}.

(** ** The monad: state passing over [World], with a fault for a NULL
    dereference *)

Inductive Res (A : Type) : Type :=
| Ok (a : A) (w : World)
| Fault.
Arguments Ok {A} a w.
Arguments Fault {A}.

Definition M (A : Type) : Type := World -> Res A.

Definition pure {A : Type} (a : A) : M A := fun w => Ok a w.

Definition bind {A B : Type} (m : M A) (k : A -> M B) : M B :=
  fun w => match m w with
           | Ok a w' => k a w'
           | Fault => Fault
           end.

Declare Scope pa_scope.
Delimit Scope pa_scope with pa.
Notation "x <- m ;; k" := (bind m (fun x => k))
  (at level 61, m at next level, right associativity) : pa_scope.
Notation "m ;; k" := (bind m (fun _ => k))
  (at level 61, right associativity) : pa_scope.
Local Open Scope pa_scope.

Definition nl : string := String "010"%char EmptyString.

(** [printf]: one more entry of standard output. *)
Definition printf (s : string) : M unit := fun w =>
  Ok tt {| ctx_state := ctx_state w; state_cb := state_cb w; pending := pending w;
           quit_req := quit_req w; stdout := stdout w ++ [s]; calls := calls w;
           delivered := delivered w; n_ops := n_ops w; iter := iter w |}.

(** [%s] of a [char*]; glibc prints a NULL argument as (null). *)
Definition fmt_s (s : cstr) : string :=
  match s with Some x => x | None => "(null)" end.

(** Record a library call. *)
Definition emit (c : Call) : M unit := fun w =>
  Ok tt {| ctx_state := ctx_state w; state_cb := state_cb w; pending := pending w;
           quit_req := quit_req w; stdout := stdout w; calls := calls w ++ [c];
           delivered := delivered w; n_ops := n_ops w; iter := iter w |}.

(** The service schedules notifications, behind those already pending. *)
Definition enqueue (evs : list loop_event) : M unit := fun w =>
  Ok tt {| ctx_state := ctx_state w; state_cb := state_cb w;
           pending := pending w ++ evs;
           quit_req := quit_req w; stdout := stdout w; calls := calls w;
           delivered := delivered w; n_ops := n_ops w; iter := iter w |}.

Definition set_ctx_state (st : pa_context_state_t) : M unit := fun w =>
  Ok tt {| ctx_state := st; state_cb := state_cb w; pending := pending w;
           quit_req := quit_req w; stdout := stdout w; calls := calls w;
           delivered := delivered w; n_ops := n_ops w; iter := iter w |}.

(** [mainloop_api->quit(mainloop_api, retval)]: the loop is asked to stop
    with [retval]; a later request replaces an earlier one. *)
Definition quit (retval : Z) : M unit := fun w =>
  Ok tt {| ctx_state := ctx_state w; state_cb := state_cb w; pending := pending w;
           quit_req := Some retval; stdout := stdout w; calls := calls w;
           delivered := delivered w; n_ops := n_ops w; iter := iter w |}.

(** [info->field] of a [const pa_ext_stream_restore_info *info]. *)
Definition deref {A : Type} (p : option A) : M A := fun w =>
  match p with
  | Some a => Ok a w
  | None => Fault
  end.

Section Program.

Variable S : Service.

(** *** libpulse, as the program sees it

    The collaborator interface: an asynchronous request returns its operation
    handle, or NULL when the operation cannot be created, and its completion
    is delivered later by the loop to the callback given with the request;
    the enumeration delivers zero or more records followed by an end marker;
    a drain completes once everything requested before it is done;
    disconnect tears the connection down and yields a Terminated
    notification. *)

(** A request for an operation: the service creates it or not. *)
Definition new_operation : M (option pa_operation) := fun w =>
  let k := n_ops w in
  Ok (if op_created S k then Some k else None)
     {| ctx_state := ctx_state w; state_cb := state_cb w; pending := pending w;
        quit_req := quit_req w; stdout := stdout w; calls := calls w;
        delivered := delivered w; n_ops := Datatypes.S k; iter := iter w |}.

Definition pa_strerror_errno : string := errstr S.

Definition pa_context_get_state : M pa_context_state_t := fun w =>
  Ok (ctx_state w) w.

Definition pa_operation_unref (o : pa_operation) : M unit :=
  emit (c_operation_unref o).

(** The completion is notified to the callback the call was given:
    [success_cb] at both call sites of [main.c]. *)
Definition pa_context_set_default_sink (name : cstr) : M (option pa_operation) :=
  emit (c_context_set_default_sink name);;
  o <- new_operation;;
  match o with
  | Some k => enqueue [EvSuccess (op_success S k)];; pure (Some k)
  | None => pure None
  end.

(** The replies of the enumeration: every record with [eol = 0], then the
    end-of-list call with a NULL record and [eol = 1]; or, when the service
    answers by an error, the single call with a NULL record and [eol = -1]. *)
Definition enumeration (userdata : cstr) : list loop_event :=
  if enum_fails S then [EvRestore None (-1) userdata]
  else map (fun r => EvRestore (Some r) 0 userdata) (records S)
       ++ [EvRestore None 1 userdata].

Definition pa_ext_stream_restore_read (userdata : cstr) : M (option pa_operation) :=
  emit (c_ext_stream_restore_read userdata);;
  o <- new_operation;;
  match o with
  | Some k => enqueue (enumeration userdata);; pure (Some k)
  | None => pure None
  end.

Definition pa_ext_stream_restore_write (mode : pa_update_mode_t)
    (data : pa_ext_stream_restore_info) (n : Z) (apply_immediately : Z)
    : M (option pa_operation) :=
  emit (c_ext_stream_restore_write mode data n apply_immediately);;
  o <- new_operation;;
  match o with
  | Some k => enqueue [EvSuccess (op_success S k)];; pure (Some k)
  | None => pure None
  end.

(** The drain completes behind everything already pending. *)
Definition pa_context_drain : M (option pa_operation) :=
  emit c_context_drain;;
  o <- new_operation;;
  match o with
  | Some k => enqueue [EvDrained];; pure (Some k)
  | None => pure None
  end.

(** Tearing the connection down yields a Terminated notification. *)
Definition pa_context_disconnect : M unit :=
  emit c_context_disconnect;;
  enqueue [EvState PA_CONTEXT_TERMINATED].

Definition pa_mainloop_new : M bool :=
  emit c_mainloop_new;; pure (mainloop_new_ok S).

Definition pa_context_new_with_proplist : M bool :=
  emit c_context_new_with_proplist;; pure (context_new_ok S).

Definition pa_context_connect : M Z :=
  emit c_context_connect;;
  if connect_ok S
  then set_ctx_state PA_CONTEXT_CONNECTING;;
       enqueue (map EvState (handshake S));;
       pure 0
  else pure (-1).

Definition pa_context_set_state_callback (userdata : cstr) : M unit := fun w =>
  emit (c_context_set_state_callback userdata)
    {| ctx_state := ctx_state w; state_cb := Some userdata; pending := pending w;
       quit_req := quit_req w; stdout := stdout w; calls := calls w;
       delivered := delivered w; n_ops := n_ops w; iter := iter w |}.

Definition PA_PROP_APPLICATION_NAME : string := "application.name".
Definition PA_PROP_APPLICATION_ID : string := "application.id".

(** *** main.c *)

(** [static int setup_context()] *)
Definition setup_context : M Z :=
  mainloop <- pa_mainloop_new;;
  if negb mainloop then
    printf ("pa_mainloop_new() failed." ++ nl);;
    pure (-1)
  else
    emit c_mainloop_get_api;;
    emit c_proplist_new;;
    emit (c_proplist_sets PA_PROP_APPLICATION_NAME "Commandline sink switcher");;
    emit (c_proplist_sets PA_PROP_APPLICATION_ID "org.tablix.paswitch");;
    context <- pa_context_new_with_proplist;;
    if negb context then
      printf ("pa_context_new() failed." ++ nl);;
      pure (-1)
    else
      emit c_proplist_free;;
      r <- pa_context_connect;;
      if r <? 0 then
        printf ("pa_context_connect() failed: " ++ pa_strerror_errno ++ nl);;
        pure (-1)
      else
        pure 0.

(** [static void context_drain_complete(pa_context *c, void *userdata)] *)
Definition context_drain_complete (userdata : cstr) : M unit :=
  pa_context_disconnect.

(** [static void drain(void)] *)
Definition drain : M unit :=
  o <- pa_context_drain;;
  match o with
  | None => pa_context_disconnect
  | Some o => pa_operation_unref o
  end.

(** [static void success_cb(pa_context* c, int success, void *userdata)] *)
Definition success_cb (success : Z) (userdata : cstr) : M unit :=
  if success =? 0 then
    printf (pa_strerror_errno ++ nl);;
    quit 1
  else pure tt.

(** [static void stream_restore_cb(pa_context *c,
      const pa_ext_stream_restore_info *info, int eol, void *userdata)] *)
Definition stream_restore_cb (info : option pa_ext_stream_restore_info)
    (eol : Z) (userdata : cstr) : M unit :=
  let name := userdata in
  if negb (eol =? 0) then
    drain
  else
    i <- deref info;;
    let new_info :=
      {| ri_name := ri_name i;
         ri_channel_map := ri_channel_map i;
         ri_volume := ri_volume i;
         ri_mute := ri_mute i;
         ri_device := name |} in
    o <- pa_ext_stream_restore_write PA_UPDATE_REPLACE new_info 1 1;;
    match o with
    | None =>
        printf ("pa_ext_stream_restore_write() failed: " ++ pa_strerror_errno ++ nl)
    | Some o => pa_operation_unref o
    end.

(** [static int set_default_sink(char* name)] *)
Definition set_default_sink (name : cstr) : M Z :=
  o <- pa_context_set_default_sink name;;
  match o with
  | None =>
      printf ("pa_context_set_default_sink() failed: " ++ pa_strerror_errno ++ nl);;
      pure (-1)
  | Some o =>
      pa_operation_unref o;;
      o <- pa_ext_stream_restore_read name;;
      match o with
      | None =>
          printf ("pa_ext_stream_restore_read() failed: " ++ pa_strerror_errno ++ nl);;
          pure (-1)
      | Some o =>
          pa_operation_unref o;;
          pure 0
      end
  end.

(** [static void context_state_callback(pa_context *c, void *userdata)] *)
Definition context_state_callback (userdata : cstr) : M unit :=
  let name := userdata in
  st <- pa_context_get_state;;
  match st with
  | PA_CONTEXT_CONNECTING
  | PA_CONTEXT_AUTHORIZING
  | PA_CONTEXT_SETTING_NAME => pure tt
  | PA_CONTEXT_READY =>
      r <- set_default_sink name;;
      if negb (r =? 0) then
        printf ("set_default_sink() failed" ++ nl);;
        quit 1
      else pure tt
  | PA_CONTEXT_TERMINATED => quit 0
  | _ =>
      printf ("connection failure: " ++ pa_strerror_errno ++ nl);;
      quit 1
  end.

(** *** The main loop *)

(** One notification is handed to the callback registered for its kind. *)
Definition dispatch (ev : loop_event) : M unit :=
  match ev with
  | EvState st =>
      set_ctx_state st;;
      fun w => match state_cb w with
               | Some userdata => context_state_callback userdata w
               | None => Ok tt w
               end
  | EvSuccess success => success_cb success None
  | EvRestore info eol userdata => stream_restore_cb info eol userdata
  | EvDrained => context_drain_complete None
  end.

Definition take_event (ev : loop_event) (rest : list loop_event) (w : World) : World :=
  {| ctx_state := ctx_state w; state_cb := state_cb w; pending := rest;
     quit_req := quit_req w; stdout := stdout w; calls := calls w;
     delivered := delivered w ++ [ev]; n_ops := n_ops w;
     iter := Datatypes.S (iter w) |}.

(** How a run of the loop ends: a quit request was seen ([pa_mainloop_run]
    returns >= 0 and stores the value), an iteration failed (it returns < 0),
    nothing is pending and nothing ever will be (it blocks for ever), the fuel
    of the model ran out, or a callback dereferenced NULL. *)
Inductive LoopRes : Type :=
| LQuit (retval : Z) (w : World)
| LError (w : World)
| LBlocked (w : World)
| LFuel (w : World)
| LFault.

Fixpoint pa_mainloop_run (fuel : nat) (w : World) : LoopRes :=
  match fuel with
  | O => LFuel w
  | Datatypes.S fuel' =>
      match quit_req w with
      | Some retval => LQuit retval w
      | None =>
          if poll_error S (iter w) then LError w
          else match pending w with
               | [] => LBlocked w
               | ev :: rest =>
                   match dispatch ev (take_event ev rest w) with
                   | Ok _ w' => pa_mainloop_run fuel' w'
                   | Fault => LFault
                   end
               end
      end
  end.

(** *** [int main(int argc, char** argv)] *)

Inductive Outcome : Type :=
| Returned (code : Z) (w : World)
| Blocked (w : World)
| OutOfFuel (w : World)
| Crashed.

Definition usage (argv0 : cstr) : string :=
  "PulseAudio commandline sink switcher" ++ nl ++
  "Copyright (C) 2012 by Tomaz Solc <tomaz.solc@tablix.org>" ++ nl ++ nl ++
  "USAGE: " ++ fmt_s argv0 ++ " [ sink ]" ++ nl.

(** What [main] does once the loop has stopped with [ret]. *)
Definition teardown (ret : Z) : M Z :=
  pa_context_disconnect;;
  emit c_context_unref;;
  emit c_signal_done;;
  emit c_mainloop_free;;
  pure ret.

Definition returned {A : Type} (r : Res A) (code : A -> Z) : Outcome :=
  match r with
  | Ok a w => Returned (code a) w
  | Fault => Crashed
  end.

(** The end of [main], from the result of [pa_mainloop_run] on. *)
Definition main_after_run (r : LoopRes) : Outcome :=
  match r with
  | LError w3 =>
      returned (printf ("pa_mainloop_run() failed." ++ nl) w3) (fun _ => 1)
  | LQuit ret w3 => returned (teardown ret w3) (fun c => c)
  | LBlocked w3 => Blocked w3
  | LFuel w3 => OutOfFuel w3
  | LFault => Crashed
  end.

Definition main_from (fuel : nat) (argv : list string) (w0 : World) : Outcome :=
  let argc := Z.of_nat (length argv) in
  if negb (argc =? 2) then
    returned (printf (usage (nth_error argv 0)) w0) (fun _ => 0)
  else
    match setup_context w0 with
    | Fault => Crashed
    | Ok r w1 =>
        if negb (r =? 0) then
          returned (printf ("can't get pulseaudio context." ++ nl) w1) (fun _ => 1)
        else
          let name := nth_error argv 1 in
          match pa_context_set_state_callback name w1 with
          | Fault => Crashed
          | Ok _ w2 =>
              main_after_run (pa_mainloop_run fuel w2)
          end
    end.

Definition main (fuel : nat) (argv : list string) : Outcome :=
  main_from fuel argv init_world.

End Program.

(** ** Reading a run *)

(** The world a run of the loop, or of the program, stops in. *)
Definition loop_world (r : LoopRes) : option World :=
  match r with
  | LQuit _ w | LError w | LBlocked w | LFuel w => Some w
  | LFault => None
  end.

Definition outcome_world (o : Outcome) : option World :=
  match o with
  | Returned _ w | Blocked w | OutOfFuel w => Some w
  | Crashed => None
  end.

(** The records written: the [data] of every call of
    [pa_ext_stream_restore_write], oldest first. *)
Fixpoint writes_of (cs : list Call) : list pa_ext_stream_restore_info :=
  match cs with
  | [] => []
  | c_ext_stream_restore_write _ data _ _ :: cs' => data :: writes_of cs'
  | _ :: cs' => writes_of cs'
  end.

(** The records read: those the enumeration callback was handed with
    [eol = 0], oldest first. *)
Fixpoint records_delivered (evs : list loop_event) : list pa_ext_stream_restore_info :=
  match evs with
  | [] => []
  | EvRestore (Some i) eol _ :: evs' =>
      if eol =? 0 then i :: records_delivered evs' else records_delivered evs'
  | _ :: evs' => records_delivered evs'
  end.

(** A written record against the record it was read from. *)
Definition migrated (name : string)
    (written read : pa_ext_stream_restore_info) : Prop :=
  ri_device written = Some name /\
  ri_name written = ri_name read /\
  ri_channel_map written = ri_channel_map read /\
  ri_volume written = ri_volume read /\
  ri_mute written = ri_mute read.

(** The copy [stream_restore_cb] builds in [new_info]. *)
Definition retarget (name : cstr) (i : pa_ext_stream_restore_info)
    : pa_ext_stream_restore_info :=
  {| ri_name := ri_name i; ri_channel_map := ri_channel_map i;
     ri_volume := ri_volume i; ri_device := name; ri_mute := ri_mute i |}.

(** A write in replace mode, of one record, applied immediately. *)
Definition write_flags_ok (c : Call) : Prop :=
  match c with
  | c_ext_stream_restore_write mode _ n apply_immediately =>
      mode = PA_UPDATE_REPLACE /\ n = 1 /\ apply_immediately = 1
  | _ => True
  end.

(** Calls that create, connect or release the two long-lived objects. *)
Definition lifecycle (c : Call) : bool :=
  match c with
  | c_mainloop_new | c_context_new_with_proplist | c_context_connect
  | c_context_unref | c_mainloop_free => true
  | _ => false
  end.

Definition is_context_unref (c : Call) : bool :=
  match c with c_context_unref => true | _ => false end.

Definition is_mainloop_free (c : Call) : bool :=
  match c with c_mainloop_free => true | _ => false end.

Definition is_context_new (c : Call) : bool :=
  match c with c_context_new_with_proplist => true | _ => false end.

Definition is_mainloop_new (c : Call) : bool :=
  match c with c_mainloop_new => true | _ => false end.

Definition count (p : Call -> bool) (cs : list Call) : nat :=
  length (filter p cs).

(** Every object created is released exactly once. *)
Definition released_once (S : Service) (cs : list Call) : Prop :=
  count is_mainloop_free cs = (if mainloop_new_ok S then count is_mainloop_new cs else 0%nat) /\
  count is_context_unref cs = (if context_new_ok S then count is_context_new cs else 0%nat).

(** Notifications the callbacks answer by doing nothing: the handshake
    states before Ready, and a completion that reports success. *)
Definition quiet (ev : loop_event) : Prop :=
  match ev with
  | EvState PA_CONTEXT_CONNECTING
  | EvState PA_CONTEXT_AUTHORIZING
  | EvState PA_CONTEXT_SETTING_NAME => True
  | EvSuccess success => success <> 0
  | _ => False
  end.

Definition state_after (evs : list loop_event) (st : pa_context_state_t)
    : pa_context_state_t :=
  fold_left (fun s ev => match ev with EvState s' => s' | _ => s end) evs st.

(** The world once the loop has delivered the quiet notifications [q] and
    [rest] is left. *)
Definition after_quiet (q rest : list loop_event) (w : World) : World :=
  {| ctx_state := state_after q (ctx_state w); state_cb := state_cb w;
     pending := rest; quit_req := quit_req w; stdout := stdout w;
     calls := calls w; delivered := delivered w ++ q; n_ops := n_ops w;
     iter := (length q + iter w)%nat |}.

(** The calls of a successful [setup_context]. *)
Definition setup_calls : list Call :=
  [c_mainloop_new; c_mainloop_get_api; c_proplist_new;
   c_proplist_sets PA_PROP_APPLICATION_NAME "Commandline sink switcher";
   c_proplist_sets PA_PROP_APPLICATION_ID "org.tablix.paswitch";
   c_context_new_with_proplist; c_proplist_free; c_context_connect].

(** The calls of [main] after the loop. *)
Definition teardown_calls : list Call :=
  [c_context_disconnect; c_context_unref; c_signal_done; c_mainloop_free].

(** The world in which [main] enters the loop after a successful
    [setup_context]: connect was called, the state callback is set with the
    device name, and the handshake is to be notified. *)
Definition started (S : Service) (name : cstr) : World :=
  {| ctx_state := PA_CONTEXT_CONNECTING; state_cb := Some name;
     pending := map EvState (handshake S); quit_req := None; stdout := [];
     calls := setup_calls ++ [c_context_set_state_callback name];
     delivered := []; n_ops := 0%nat; iter := 0%nat |}.

(** An enumeration reply that carries [name] as its user data. *)
Definition restore_userdata (name : cstr) (ev : loop_event) : Prop :=
  match ev with
  | EvRestore _ _ userdata => userdata = name
  | _ => True
  end.

(** The copies to be written for the records among [evs], each for the user
    data it was delivered with. *)
Fixpoint retargeted (evs : list loop_event) : list pa_ext_stream_restore_info :=
  match evs with
  | [] => []
  | EvRestore (Some i) eol userdata :: evs' =>
      if eol =? 0 then retarget userdata i :: retargeted evs' else retargeted evs'
  | _ :: evs' => retargeted evs'
  end.

(** What holds of the loop at every iteration, from the world [w0] it was
    entered in: the calls made since are no life-cycle calls, the writes among
    them are flagged as [stream_restore_cb] flags them and are the copies of
    the records delivered since, in order. *)
Definition run_inv (name : cstr) (w0 w : World) : Prop :=
  state_cb w = Some name /\
  Forall (restore_userdata name) (pending w) /\
  exists cs dl,
    (calls w = calls w0 ++ cs)%list /\
    (delivered w = delivered w0 ++ dl)%list /\
    Forall write_flags_ok cs /\
    Forall (fun c => lifecycle c = false) cs /\
    Forall (restore_userdata name) dl /\
    writes_of cs = retargeted dl.

(** ** Sample services *)

Definition stereo : pa_channel_map := {| cm_channels := 2; cm_map := [1; 2] |}.

Definition player : pa_ext_stream_restore_info :=
  {| ri_name := "sink-input-by-application-name:player";
     ri_channel_map := stereo;
     ri_volume := {| cv_channels := 2; cv_values := [65536; 65536] |};
     ri_device := Some "alsa_output.speakers";
     ri_mute := 0 |}.

Definition player_muted : pa_ext_stream_restore_info :=
  {| ri_name := "sink-input-by-application-name:player";
     ri_channel_map := stereo;
     ri_volume := {| cv_channels := 2; cv_values := [30000; 30000] |};
     ri_device := None;
     ri_mute := 1 |}.

(** Everything succeeds; the same stream name is listed twice. *)
Definition svc_ok : Service :=
  {| mainloop_new_ok := true; context_new_ok := true; connect_ok := true;
     handshake := [PA_CONTEXT_AUTHORIZING; PA_CONTEXT_SETTING_NAME; PA_CONTEXT_READY];
     op_created := fun _ => true; op_success := fun _ => 1;
     enum_fails := false; records := [player; player_muted];
     errstr := "OK"; poll_error := fun _ => false |}.


(** One record, and the write operation for it (the third operation
    requested) cannot be created. *)
Definition svc_write_refused : Service :=
  {| mainloop_new_ok := true; context_new_ok := true; connect_ok := true;
     handshake := [PA_CONTEXT_AUTHORIZING; PA_CONTEXT_SETTING_NAME; PA_CONTEXT_READY];
     op_created := fun k => negb (Nat.eqb k 2); op_success := fun _ => 1;
     enum_fails := false; records := [player];
     errstr := "Too large"; poll_error := fun _ => false |}.

(** [pa_context_connect] fails at once. *)
Definition svc_connect_refused : Service :=
  {| mainloop_new_ok := true; context_new_ok := true; connect_ok := false;
     handshake := [];
     op_created := fun _ => true; op_success := fun _ => 1;
     enum_fails := false; records := [player];
     errstr := "Connection refused"; poll_error := fun _ => false |}.

(** The handshake ends in Failed. *)
Definition svc_unreachable : Service :=
  {| mainloop_new_ok := true; context_new_ok := true; connect_ok := true;
     handshake := [PA_CONTEXT_AUTHORIZING; PA_CONTEXT_FAILED];
     op_created := fun _ => true; op_success := fun _ => 1;
     enum_fails := false; records := [player];
     errstr := "Connection refused"; poll_error := fun _ => false |}.

(** A world in the middle of a run: connected and Ready, the state callback
    set by [main], one write still to be completed. *)
Definition w_ready : World :=
  {| ctx_state := PA_CONTEXT_READY; state_cb := Some (Some "hdmi");
     pending := [EvSuccess 1]; quit_req := None; stdout := [];
     calls := setup_calls ++ [c_context_set_state_callback (Some "hdmi")];
     delivered := [EvState PA_CONTEXT_READY];
     n_ops := 3%nat; iter := 1%nat |}.

(** The same connection when the transport breaks: the Failed notification
    is next, ahead of the completion of the write. *)
Definition w_failing : World :=
  {| ctx_state := PA_CONTEXT_READY; state_cb := Some (Some "hdmi");
     pending := [EvState PA_CONTEXT_FAILED; EvSuccess 1]; quit_req := None;
     stdout := [];
     calls := setup_calls ++ [c_context_set_state_callback (Some "hdmi")];
     delivered := [EvState PA_CONTEXT_READY];
     n_ops := 3%nat; iter := 1%nat |}.

(** ** Reading the end of a run *)

(** The end of the enumeration: a reply with [eol] set. *)
Definition is_eol (ev : loop_event) : Prop :=
  match ev with
  | EvRestore _ eol _ => eol <> 0
  | _ => False
  end.

(** The enumeration has come to its end and the drain was requested. *)
Definition enumeration_done (w : World) : Prop :=
  In c_context_drain (calls w) /\ Exists is_eol (delivered w).

(** The connection is on its way down: a drain is to complete, a disconnect
    was called, Terminated is to be notified, or the loop was asked to stop
    with 0. *)
Definition closing (w : World) : Prop :=
  In (EvState PA_CONTEXT_TERMINATED) (pending w) \/
  In EvDrained (pending w) \/
  quit_req w = Some 0 \/
  In c_context_disconnect (calls w).

(** The exit statuses the callbacks ask for. *)
Definition quit_0_or_1 (w : World) : Prop :=
  quit_req w = None \/ quit_req w = Some 0 \/ quit_req w = Some 1.

(** ** More sample services *)

(** [pa_mainloop_new] fails. *)
Definition svc_no_mainloop : Service :=
  {| mainloop_new_ok := false; context_new_ok := true; connect_ok := true;
     handshake := [PA_CONTEXT_READY];
     op_created := fun _ => true; op_success := fun _ => 1;
     enum_fails := false; records := [player];
     errstr := "OK"; poll_error := fun _ => false |}.

(** The context cannot be created. *)
Definition svc_no_context : Service :=
  {| mainloop_new_ok := true; context_new_ok := false; connect_ok := true;
     handshake := [PA_CONTEXT_READY];
     op_created := fun _ => true; op_success := fun _ => 1;
     enum_fails := false; records := [player];
     errstr := "OK"; poll_error := fun _ => false |}.

(** No operation can be created. *)
Definition svc_no_operation : Service :=
  {| mainloop_new_ok := true; context_new_ok := true; connect_ok := true;
     handshake := [PA_CONTEXT_AUTHORIZING; PA_CONTEXT_SETTING_NAME; PA_CONTEXT_READY];
     op_created := fun _ => false; op_success := fun _ => 1;
     enum_fails := false; records := [player];
     errstr := "Too large"; poll_error := fun _ => false |}.

(** The default sink is requested, the enumeration cannot be. *)
Definition svc_no_enumeration : Service :=
  {| mainloop_new_ok := true; context_new_ok := true; connect_ok := true;
     handshake := [PA_CONTEXT_AUTHORIZING; PA_CONTEXT_SETTING_NAME; PA_CONTEXT_READY];
     op_created := fun k => Nat.eqb k 0; op_success := fun _ => 1;
     enum_fails := false; records := [player];
     errstr := "Too large"; poll_error := fun _ => false |}.

(** The second iteration of the loop fails in poll. *)
Definition svc_poll_fails : Service :=
  {| mainloop_new_ok := true; context_new_ok := true; connect_ok := true;
     handshake := [PA_CONTEXT_AUTHORIZING; PA_CONTEXT_SETTING_NAME; PA_CONTEXT_READY];
     op_created := fun _ => true; op_success := fun _ => 1;
     enum_fails := false; records := [player];
     errstr := "OK"; poll_error := fun k => Nat.eqb k 1 |}.

(** The enumeration is answered by an error. *)
Definition svc_enum_error : Service :=
  {| mainloop_new_ok := true; context_new_ok := true; connect_ok := true;
     handshake := [PA_CONTEXT_AUTHORIZING; PA_CONTEXT_SETTING_NAME; PA_CONTEXT_READY];
     op_created := fun _ => true; op_success := fun _ => 1;
     enum_fails := true; records := [player; player_muted];
     errstr := "Access denied"; poll_error := fun _ => false |}.

(** The service reports that the default sink could not be set. *)
Definition svc_sink_rejected : Service :=
  {| mainloop_new_ok := true; context_new_ok := true; connect_ok := true;
     handshake := [PA_CONTEXT_AUTHORIZING; PA_CONTEXT_SETTING_NAME; PA_CONTEXT_READY];
     op_created := fun _ => true; op_success := fun k => if Nat.eqb k 0 then 0 else 1;
     enum_fails := false; records := [player; player_muted];
     errstr := "No such entity"; poll_error := fun _ => false |}.

(** The service reports that the second write (the fourth operation) failed. *)
Definition svc_write_rejected : Service :=
  {| mainloop_new_ok := true; context_new_ok := true; connect_ok := true;
     handshake := [PA_CONTEXT_AUTHORIZING; PA_CONTEXT_SETTING_NAME; PA_CONTEXT_READY];
     op_created := fun _ => true; op_success := fun k => if Nat.eqb k 3 then 0 else 1;
     enum_fails := false; records := [player; player_muted; player];
     errstr := "No such entity"; poll_error := fun _ => false |}.

(** The handshake never gets further than setting the name. *)
Definition svc_stalled : Service :=
  {| mainloop_new_ok := true; context_new_ok := true; connect_ok := true;
     handshake := [PA_CONTEXT_AUTHORIZING; PA_CONTEXT_SETTING_NAME];
     op_created := fun _ => true; op_success := fun _ => 1;
     enum_fails := false; records := [player];
     errstr := "OK"; poll_error := fun _ => false |}.

(** The connection falls back to Unconnected with a write still pending. *)
Definition w_unconnecting : World :=
  {| ctx_state := PA_CONTEXT_READY; state_cb := Some (Some "hdmi");
     pending := [EvState PA_CONTEXT_UNCONNECTED; EvSuccess 1]; quit_req := None;
     stdout := [];
     calls := setup_calls ++ [c_context_set_state_callback (Some "hdmi")];
     delivered := [EvState PA_CONTEXT_READY];
     n_ops := 3%nat; iter := 1%nat |}.

(** ** Proofs *)

Local Open Scope list_scope.

Create HintDb pa_unfold.
#[local] Hint Unfold dispatch context_state_callback set_default_sink
  stream_restore_cb success_cb drain context_drain_complete
  pa_context_disconnect pa_context_drain pa_ext_stream_restore_write
  pa_ext_stream_restore_read pa_context_set_default_sink pa_operation_unref
  pa_context_get_state pa_strerror_errno new_operation
  bind pure emit enqueue printf quit set_ctx_state deref : pa_unfold.

#[local] Arguments pa_mainloop_run : simpl never.

(** Run a callback symbolically: unfold it down to the world it builds. *)
Ltac run_cb := autounfold with pa_unfold; cbn.

Lemma writes_of_app (cs1 cs2 : list Call) :
  writes_of (cs1 ++ cs2) = writes_of cs1 ++ writes_of cs2.
Proof.
  induction cs1 as [|c cs1 IH]; [reflexivity|].
  destruct c; cbn; rewrite IH; reflexivity.
Qed.

Lemma records_delivered_app (evs1 evs2 : list loop_event) :
  records_delivered (evs1 ++ evs2) = records_delivered evs1 ++ records_delivered evs2.
Proof.
  induction evs1 as [|ev evs1 IH]; [reflexivity|].
  destruct ev as [st|s|[i|] eol ud|]; cbn; try exact IH.
  destruct (eol =? 0); cbn; rewrite IH; reflexivity.
Qed.

Lemma count_app (p : Call -> bool) (cs1 cs2 : list Call) :
  count p (cs1 ++ cs2) = (count p cs1 + count p cs2)%nat.
Proof. unfold count. rewrite filter_app, length_app. reflexivity. Qed.

Lemma count_none (p : Call -> bool) (cs : list Call) :
  Forall (fun c => p c = false) cs -> count p cs = 0%nat.
Proof.
  unfold count. induction 1 as [|c cs Hc _ IH]; [reflexivity|].
  cbn. rewrite Hc. exact IH.
Qed.

Section Loop.

Variable S : Service.

(** *** One iteration *)

Lemma run_quit (fuel : nat) (w : World) (retval : Z) :
  quit_req w = Some retval ->
  pa_mainloop_run S (Datatypes.S fuel) w = LQuit retval w.
Proof. intros H. unfold pa_mainloop_run. rewrite H. reflexivity. Qed.

Lemma run_step (fuel : nat) (w : World) (ev : loop_event) (rest : list loop_event) :
  quit_req w = None -> poll_error S (iter w) = false -> pending w = ev :: rest ->
  pa_mainloop_run S (Datatypes.S fuel) w =
  match dispatch S ev (take_event ev rest w) with
  | Ok _ w' => pa_mainloop_run S fuel w'
  | Fault => LFault
  end.
Proof.
  intros Hq Hp Hev. unfold pa_mainloop_run; fold pa_mainloop_run.
  rewrite Hq, Hp, Hev. reflexivity.
Qed.

(** A run that stops on a quit request stops with the value requested last. *)
Lemma run_quit_value (fuel : nat) :
  forall (w w' : World) (retval : Z),
    pa_mainloop_run S fuel w = LQuit retval w' -> quit_req w' = Some retval.
Proof.
  induction fuel as [|fuel IH]; intros w w' retval H; [discriminate|].
  unfold pa_mainloop_run in H; fold pa_mainloop_run in H.
  destruct (quit_req w) as [r|] eqn:Hq.
  - inversion H; subst. exact Hq.
  - destruct (poll_error S (iter w)); [discriminate|].
    destruct (pending w) as [|ev rest]; [discriminate|].
    destruct (dispatch S ev (take_event ev rest w)) as [u w1|]; [|discriminate].
    eapply IH; eassumption.
Qed.

(** A run that fails in poll was never asked to quit. *)
Lemma run_error_no_quit (fuel : nat) :
  forall (w w' : World),
    pa_mainloop_run S fuel w = LError w' -> quit_req w' = None.
Proof.
  induction fuel as [|fuel IH]; intros w w' H; [discriminate|].
  unfold pa_mainloop_run in H; fold pa_mainloop_run in H.
  destruct (quit_req w) as [r|] eqn:Hq; [discriminate|].
  destruct (poll_error S (iter w)).
  - inversion H; subst. exact Hq.
  - destruct (pending w) as [|ev rest]; [discriminate|].
    destruct (dispatch S ev (take_event ev rest w)) as [u w1|]; [|discriminate].
    eapply IH; eassumption.
Qed.

(** *** Quiet notifications *)

Lemma dispatch_quiet (ev : loop_event) (w : World) :
  quiet ev ->
  dispatch S ev w =
  Ok tt {| ctx_state := state_after [ev] (ctx_state w); state_cb := state_cb w;
           pending := pending w; quit_req := quit_req w; stdout := stdout w;
           calls := calls w; delivered := delivered w; n_ops := n_ops w;
           iter := iter w |}.
Proof.
  destruct w as [st cb pd qr out cs dl n it].
  destruct ev as [s|success|info eol ud|]; cbn [quiet]; intros Hq; try contradiction.
  - destruct s; try contradiction; run_cb; destruct cb; reflexivity.
  - run_cb. destruct (Z.eqb_spec success 0); [contradiction|reflexivity].
Qed.

Lemma run_quiet (q : list loop_event) :
  forall (rest : list loop_event) (w : World) (fuel : nat),
    Forall quiet q ->
    (forall k, poll_error S k = false) ->
    quit_req w = None ->
    pending w = q ++ rest ->
    pa_mainloop_run S (length q + fuel) w =
    pa_mainloop_run S fuel (after_quiet q rest w).
Proof.
  induction q as [|ev q IH]; intros rest w fuel Hq Hpoll Hquit Hpend.
  - destruct w; cbn in *; subst; unfold after_quiet; cbn.
    rewrite app_nil_r. reflexivity.
  - inversion Hq as [|ev' q' Hev Hq']; subst.
    cbn [length Nat.add].
    rewrite (run_step _ _ ev (q ++ rest)) by auto.
    rewrite (dispatch_quiet _ _ Hev).
    rewrite (IH rest) by (cbn; auto).
    f_equal. unfold after_quiet, take_event; cbn.
    rewrite <- app_assoc. f_equal. lia.
Qed.

(** *** The callbacks, one notification at a time *)

(** A completion that reports failure: the error string is printed and the
    loop is asked to stop with 1. *)
Lemma success_cb_failure (userdata : cstr) (w : World) :
  exists w', success_cb S 0 userdata w = Ok tt w' /\
    quit_req w' = Some 1 /\
    stdout w' = stdout w ++ [(errstr S ++ nl)%string] /\
    calls w' = calls w /\ pending w' = pending w.
Proof. run_cb. eexists; split; [reflexivity|]. cbn. auto. Qed.

(** The end-of-list marker: [drain] and nothing else. *)
Lemma drain_runs (w : World) :
  exists w', drain S w = Ok tt w' /\
    calls w' = calls w ++
      (if op_created S (n_ops w)
       then [c_context_drain; c_operation_unref (n_ops w)]
       else [c_context_drain; c_context_disconnect]) /\
    pending w' = pending w ++
      (if op_created S (n_ops w) then [EvDrained] else [EvState PA_CONTEXT_TERMINATED]) /\
    quit_req w' = quit_req w /\ stdout w' = stdout w /\
    state_cb w' = state_cb w /\ delivered w' = delivered w /\
    ctx_state w' = ctx_state w /\ iter w' = iter w /\
    n_ops w' = Datatypes.S (n_ops w).
Proof.
  run_cb. destruct (op_created S (n_ops w)); cbn;
    (eexists; split; [reflexivity|]); cbn;
    rewrite <- ?app_assoc; cbn; repeat split; reflexivity.
Qed.

(** A record: one write of the retargeted copy, and no quit request whether
    or not the operation could be created. *)
Lemma stream_restore_cb_record (i : pa_ext_stream_restore_info)
    (userdata : cstr) (w : World) :
  exists w', stream_restore_cb S (Some i) 0 userdata w = Ok tt w' /\
    calls w' = calls w ++
      c_ext_stream_restore_write PA_UPDATE_REPLACE (retarget userdata i) 1 1 ::
      (if op_created S (n_ops w) then [c_operation_unref (n_ops w)] else []) /\
    pending w' = pending w ++
      (if op_created S (n_ops w) then [EvSuccess (op_success S (n_ops w))] else []) /\
    stdout w' = stdout w ++
      (if op_created S (n_ops w) then []
       else [("pa_ext_stream_restore_write() failed: " ++ errstr S ++ nl)%string]) /\
    quit_req w' = quit_req w /\
    state_cb w' = state_cb w /\ delivered w' = delivered w /\
    ctx_state w' = ctx_state w /\ iter w' = iter w /\
    n_ops w' = Datatypes.S (n_ops w).
Proof.
  run_cb. unfold retarget. destruct (op_created S (n_ops w)); cbn;
    (eexists; split; [reflexivity|]); cbn;
    rewrite <- ?app_assoc, ?app_nil_r; cbn; repeat split; reflexivity.
Qed.

(** Ready: [set_default_sink], whose two requests follow each other. *)
Lemma ready_runs (name : cstr) (w : World) :
  ctx_state w = PA_CONTEXT_READY ->
  op_created S (n_ops w) = true ->
  exists w', context_state_callback S name w = Ok tt w' /\
    calls w' = calls w ++
      [c_context_set_default_sink name; c_operation_unref (n_ops w);
       c_ext_stream_restore_read name] ++
      (if op_created S (Datatypes.S (n_ops w))
       then [c_operation_unref (Datatypes.S (n_ops w))] else []) /\
    pending w' = pending w ++ [EvSuccess (op_success S (n_ops w))] ++
      (if op_created S (Datatypes.S (n_ops w)) then enumeration S name else []) /\
    quit_req w' =
      (if op_created S (Datatypes.S (n_ops w)) then quit_req w else Some 1) /\
    state_cb w' = state_cb w /\ delivered w' = delivered w /\
    ctx_state w' = ctx_state w /\ iter w' = iter w /\
    n_ops w' = Datatypes.S (Datatypes.S (n_ops w)).
Proof.
  intros Hst Hop. run_cb. rewrite Hst, Hop. cbn.
  destruct (op_created S (Datatypes.S (n_ops w))); cbn;
    (eexists; split; [reflexivity|]); cbn;
    rewrite <- ?app_assoc, ?app_nil_r; cbn; repeat split; auto.
Qed.

(** *** Draining *)

(** From [drain] to the end of the loop, while everything still pending is
    quiet: the connection is disconnected (at once when the drain operation
    cannot be created, on its completion otherwise), the Terminated
    notification follows and the state callback asks the loop to stop
    with 0. *)
Lemma drain_to_quit (name : cstr) (w : World) :
  state_cb w = Some name ->
  quit_req w = None ->
  (forall k, poll_error S k = false) ->
  Forall quiet (pending w) ->
  exists w1 w2,
    drain S w = Ok tt w1 /\
    calls w1 = calls w ++
      (if op_created S (n_ops w)
       then [c_context_drain; c_operation_unref (n_ops w)]
       else [c_context_drain; c_context_disconnect]) /\
    (forall fuel,
       pa_mainloop_run S (length (pending w) + 3 + fuel) w1 = LQuit 0 w2) /\
    ctx_state w2 = PA_CONTEXT_TERMINATED /\
    calls w2 = calls w ++
      (if op_created S (n_ops w)
       then [c_context_drain; c_operation_unref (n_ops w); c_context_disconnect]
       else [c_context_drain; c_context_disconnect]) /\
    delivered w2 = delivered w ++ pending w ++
      (if op_created S (n_ops w)
       then [EvDrained; EvState PA_CONTEXT_TERMINATED]
       else [EvState PA_CONTEXT_TERMINATED]) /\
    stdout w2 = stdout w.
Proof.
  intros Hcb Hquit Hpoll Hquiet.
  destruct (op_created S (n_ops w)) eqn:Hop.
  - eexists. eexists. split; [run_cb; rewrite Hop; cbn; reflexivity|].
    split; [cbn; rewrite <- app_assoc; reflexivity|].
    split.
    + intros fuel. rewrite <- Nat.add_assoc.
      rewrite (run_quiet (pending w) [EvDrained]) by (cbn; auto).
      change (3 + fuel)%nat with (Datatypes.S (Datatypes.S (Datatypes.S fuel))).
      erewrite run_step by (cbn; auto). run_cb.
      erewrite run_step by (cbn; auto). run_cb. rewrite Hcb. cbn.
      rewrite run_quit with (retval := 0) by reflexivity.
      reflexivity.
    + cbn. rewrite <- !app_assoc. cbn. repeat split; reflexivity.
  - eexists. eexists. split; [run_cb; rewrite Hop; cbn; reflexivity|].
    split; [cbn; rewrite <- app_assoc; reflexivity|].
    split.
    + intros fuel. rewrite <- Nat.add_assoc.
      rewrite (run_quiet (pending w) [EvState PA_CONTEXT_TERMINATED]) by (cbn; auto).
      change (3 + fuel)%nat with (Datatypes.S (Datatypes.S (Datatypes.S fuel))).
      erewrite run_step by (cbn; auto). run_cb. rewrite Hcb. cbn.
      rewrite run_quit with (retval := 0) by reflexivity.
      reflexivity.
    + cbn. rewrite <- !app_assoc. cbn. repeat split; reflexivity.
Qed.

(** C5. The drain controller: [drain] asks the service to drain and, when the
    operation is created, leaves the disconnect to [context_drain_complete];
    when it is not created, it disconnects at once.  Either way the
    Terminated notification reaches the state callback, the loop stops with
    status 0 and the connection is Terminated. *)
Theorem drain_disconnects_then_quit_0 (name : cstr) (w : World) :
  state_cb w = Some name ->
  quit_req w = None ->
  (forall k, poll_error S k = false) ->
  Forall quiet (pending w) ->
  exists w1 w2,
    drain S w = Ok tt w1 /\
    calls w1 = calls w ++
      (if op_created S (n_ops w)
       then [c_context_drain; c_operation_unref (n_ops w)]
       else [c_context_drain; c_context_disconnect]) /\
    pa_mainloop_run S (length (pending w) + 3) w1 = LQuit 0 w2 /\
    ctx_state w2 = PA_CONTEXT_TERMINATED /\
    calls w2 = calls w ++
      (if op_created S (n_ops w)
       then [c_context_drain; c_operation_unref (n_ops w); c_context_disconnect]
       else [c_context_drain; c_context_disconnect]) /\
    delivered w2 = delivered w ++ pending w ++
      (if op_created S (n_ops w)
       then [EvDrained; EvState PA_CONTEXT_TERMINATED]
       else [EvState PA_CONTEXT_TERMINATED]).
Proof.
  intros Hcb Hquit Hpoll Hquiet.
  destruct (drain_to_quit name w Hcb Hquit Hpoll Hquiet)
    as (w1 & w2 & Hd & Hc1 & Hrun & Hst & Hc2 & Hdl & _).
  exists w1, w2. repeat split; try assumption.
  rewrite <- (Hrun 0%nat). f_equal. lia.
Qed.

(** C10. With the end-of-list marker set, [stream_restore_cb] is [drain]:
    the result does not depend on the record pointer, a NULL pointer is not
    dereferenced (the callback does not fault), and nothing is written. *)
Theorem stream_restore_cb_eol_ignores_info
    (info : option pa_ext_stream_restore_info) (eol : Z) (userdata : cstr)
    (w : World) :
  eol <> 0 ->
  stream_restore_cb S info eol userdata w = drain S w /\
  stream_restore_cb S None eol userdata w = drain S w /\
  exists w', drain S w = Ok tt w' /\ writes_of (calls w') = writes_of (calls w).
Proof.
  intros Heol.
  assert (Hcb : forall i, stream_restore_cb S i eol userdata w = drain S w).
  { intros i. unfold stream_restore_cb.
    destruct (Z.eqb_spec eol 0); [contradiction|reflexivity]. }
  split; [apply Hcb|]. split; [apply Hcb|].
  destruct (drain_runs w) as (w' & Hd & Hc & _).
  exists w'. split; [exact Hd|].
  rewrite Hc, writes_of_app.
  destruct (op_created S (n_ops w)); cbn; apply app_nil_r.
Qed.

(** Without the marker the record is read: a NULL pointer faults. *)
Lemma stream_restore_cb_null_record (userdata : cstr) (w : World) :
  stream_restore_cb S None 0 userdata w = Fault.
Proof. reflexivity. Qed.

(** The Failed notification, at the head of what is pending. *)
Lemma run_failed (name : cstr) (w : World) (rest : list loop_event)
    (fuel : nat) :
  state_cb w = Some name ->
  quit_req w = None ->
  poll_error S (iter w) = false ->
  pending w = EvState PA_CONTEXT_FAILED :: rest ->
  exists w',
    pa_mainloop_run S (Datatypes.S (Datatypes.S fuel)) w = LQuit 1 w' /\
    stdout w' = stdout w ++ [("connection failure: " ++ errstr S ++ nl)%string] /\
    calls w' = calls w /\
    pending w' = rest /\
    delivered w' = delivered w ++ [EvState PA_CONTEXT_FAILED] /\
    ctx_state w' = PA_CONTEXT_FAILED.
Proof.
  intros Hcb Hquit Hpoll Hpend.
  rewrite (run_step _ _ _ _ Hquit Hpoll Hpend).
  run_cb. rewrite Hcb. cbn.
  rewrite run_quit with (retval := 1) by reflexivity.
  eexists. split; [reflexivity|]. cbn. repeat split; reflexivity.
Qed.

(** C6. A state change to Failed: the loop hands it to the state callback,
    which prints the error string of the connection and asks the loop to stop
    with 1; the loop stops there, with whatever else was pending left
    undelivered. *)
Theorem failed_state_stops_loop_with_1 (name : cstr) (w : World)
    (rest : list loop_event) (fuel : nat) :
  state_cb w = Some name ->
  quit_req w = None ->
  poll_error S (iter w) = false ->
  pending w = EvState PA_CONTEXT_FAILED :: rest ->
  exists w',
    pa_mainloop_run S (2 + fuel) w = LQuit 1 w' /\
    stdout w' = stdout w ++ [("connection failure: " ++ errstr S ++ nl)%string] /\
    calls w' = calls w /\
    pending w' = rest /\
    delivered w' = delivered w ++ [EvState PA_CONTEXT_FAILED] /\
    ctx_state w' = PA_CONTEXT_FAILED.
Proof.
  intros Hcb Hquit Hpoll Hpend.
  exact (run_failed name w rest fuel Hcb Hquit Hpoll Hpend).
Qed.

(** C3. The Ready notification: the state callback requests the default sink
    and, the operation being created, requests the enumeration next, with the
    device name as its user data.  No notification is delivered in between:
    the completion of the first request is still pending, ahead of the
    replies of the enumeration, which carry the device name. *)
Theorem ready_issues_both_requests (name : cstr) (w : World) :
  state_cb w = Some name ->
  op_created S (n_ops w) = true ->
  exists w',
    dispatch S (EvState PA_CONTEXT_READY) w = Ok tt w' /\
    calls w' = calls w ++
      [c_context_set_default_sink name; c_operation_unref (n_ops w);
       c_ext_stream_restore_read name] ++
      (if op_created S (Datatypes.S (n_ops w))
       then [c_operation_unref (Datatypes.S (n_ops w))] else []) /\
    delivered w' = delivered w /\
    pending w' = pending w ++ [EvSuccess (op_success S (n_ops w))] ++
      (if op_created S (Datatypes.S (n_ops w)) then enumeration S name else []).
Proof.
  intros Hcb Hop.
  unfold dispatch, bind, set_ctx_state. cbn [state_cb]. rewrite Hcb.
  match goal with
  | |- exists w', context_state_callback S name ?w0 = _ /\ _ =>
      destruct (ready_runs name w0 eq_refl Hop)
        as (w' & Hr & Hc & Hp & _ & _ & Hd & _)
  end.
  exists w'. repeat split; assumption.
Qed.


(** *** What one dispatch does to the world *)

Lemma retargeted_app (evs1 evs2 : list loop_event) :
  retargeted (evs1 ++ evs2) = retargeted evs1 ++ retargeted evs2.
Proof.
  induction evs1 as [|ev evs1 IH]; [reflexivity|].
  destruct ev as [st|s|[i|] eol ud|]; cbn; try exact IH.
  destruct (eol =? 0); cbn; rewrite IH; reflexivity.
Qed.

Lemma enumeration_userdata (name : cstr) :
  Forall (restore_userdata name) (enumeration S name).
Proof.
  unfold enumeration. destruct (enum_fails S).
  - repeat constructor.
  - apply Forall_app. split; [|repeat constructor].
    apply Forall_forall. intros ev Hin.
    apply in_map_iff in Hin. destruct Hin as (r & <- & _). reflexivity.
Qed.

#[local] Arguments enumeration : simpl never.

Ltac grown :=
  first [ symmetry; apply app_nil_r
        | rewrite <- ?app_assoc; cbn; reflexivity ].

Ltac all_of :=
  repeat first [ apply Forall_nil
               | apply enumeration_userdata
               | apply Forall_cons
               | apply Forall_app; split ];
  cbn; auto.

Ltac effect_done H :=
  inversion H; subst; clear H; cbn;
  split; [reflexivity|]; split; [reflexivity|];
  eexists; eexists;
  split; [grown|]; split; [grown|];
  split; [all_of|]; split; [all_of|]; split; [all_of|];
  cbn; reflexivity.

Lemma dispatch_effect (name : cstr) (ev : loop_event) (w w' : World) :
  state_cb w = Some name ->
  restore_userdata name ev ->
  dispatch S ev w = Ok tt w' ->
  state_cb w' = Some name /\
  delivered w' = delivered w /\
  exists cs new,
    calls w' = calls w ++ cs /\
    pending w' = pending w ++ new /\
    Forall write_flags_ok cs /\
    Forall (fun c => lifecycle c = false) cs /\
    Forall (restore_userdata name) new /\
    writes_of cs = retargeted [ev].
Proof.
  intros Hcb Hud H.
  destruct w as [st cb pd qr out cs0 dl n it]. cbn in Hcb. subst cb.
  destruct ev as [s|success|info eol ud|]; cbn in Hud; subst.
  - destruct s; autounfold with pa_unfold in H; cbn in H;
      try (effect_done H).
    destruct (op_created S n); cbn in H; [|effect_done H].
    destruct (op_created S (Datatypes.S n)); cbn in H; effect_done H.
  - autounfold with pa_unfold in H; cbn in H.
    destruct (success =? 0); cbn in H; effect_done H.
  - cbn [retargeted].
    autounfold with pa_unfold in H.
    destruct (eol =? 0); cbn in H.
    + destruct info as [i|]; cbn in H; [|discriminate].
      destruct (op_created S n); cbn in H; effect_done H.
    + assert (Hnil : (match info with
                      | Some _ => @nil pa_ext_stream_restore_info
                      | None => []
                      end) = []) by (destruct info; reflexivity).
      rewrite Hnil.
      destruct (op_created S n); cbn in H; effect_done H.
  - autounfold with pa_unfold in H; cbn in H. effect_done H.
Qed.

(** *** The invariant of the loop *)

Lemma run_inv_init (name : cstr) (w0 : World) :
  state_cb w0 = Some name ->
  Forall (restore_userdata name) (pending w0) ->
  run_inv name w0 w0.
Proof.
  intros Hcb Hpend. split; [exact Hcb|]. split; [exact Hpend|].
  exists [], []. rewrite !app_nil_r. repeat split; constructor.
Qed.

Lemma run_inv_step (name : cstr) (w0 w w' : World)
    (ev : loop_event) (rest : list loop_event) :
  run_inv name w0 w ->
  pending w = ev :: rest ->
  dispatch S ev (take_event ev rest w) = Ok tt w' ->
  run_inv name w0 w'.
Proof.
  intros (Hcb & Hpend & cs & dl & Hcs & Hdl & Hfl & Hlc & Hud & Hwr) Hev Hd.
  rewrite Hev in Hpend. inversion Hpend as [|ev' rest' Hev_ud Hrest]; subst.
  destruct (dispatch_effect name ev (take_event ev rest w) w' Hcb Hev_ud Hd)
    as (Hcb' & Hdl' & cs1 & new & Hcs1 & Hnew & Hfl1 & Hlc1 & Hud1 & Hwr1).
  cbn in Hdl', Hcs1, Hnew.
  split; [exact Hcb'|]. split.
  - rewrite Hnew. apply Forall_app. split; assumption.
  - exists (cs ++ cs1), (dl ++ [ev]).
    rewrite Hcs1, Hcs, Hdl', Hdl, <- !app_assoc.
    repeat split; try (apply Forall_app; split; auto).
    rewrite writes_of_app, retargeted_app, Hwr, Hwr1. reflexivity.
Qed.

Lemma run_inv_loop (name : cstr) (w0 : World) (fuel : nat) :
  forall w w',
    run_inv name w0 w ->
    loop_world (pa_mainloop_run S fuel w) = Some w' ->
    run_inv name w0 w'.
Proof.
  induction fuel as [|fuel IH]; intros w w' Hinv H.
  - cbn in H. inversion H; subst. exact Hinv.
  - unfold pa_mainloop_run in H; fold pa_mainloop_run in H.
    destruct (quit_req w); [inversion H; subst; exact Hinv|].
    destruct (poll_error S (iter w)); [inversion H; subst; exact Hinv|].
    destruct (pending w) as [|ev rest] eqn:Hev; [inversion H; subst; exact Hinv|].
    destruct (dispatch S ev (take_event ev rest w)) as [[] w1|] eqn:Hd;
      [|discriminate].
    apply (IH w1 w'); [|exact H].
    eapply run_inv_step; eassumption.
Qed.

(** When every reply carries the same user data, the copies are the records
    retargeted to it. *)
Lemma retargeted_same (name : cstr) (evs : list loop_event) :
  Forall (restore_userdata name) evs ->
  retargeted evs = map (retarget name) (records_delivered evs).
Proof.
  induction 1 as [|ev evs Hev _ IH]; [reflexivity|].
  destruct ev as [st|s|[i|] eol ud|]; cbn in *; try exact IH.
  subst ud. destruct (eol =? 0); cbn; rewrite IH; reflexivity.
Qed.

Lemma retarget_migrated (name : string) (rs : list pa_ext_stream_restore_info) :
  Forall2 (migrated name) (map (retarget (Some name)) rs) rs.
Proof.
  induction rs as [|r rs IH]; constructor; [|exact IH].
  repeat split; reflexivity.
Qed.


(** *** The program *)

Lemma main_enters_loop (fuel : nat) (prog name : string) :
  mainloop_new_ok S = true -> context_new_ok S = true -> connect_ok S = true ->
  main S fuel [prog; name] =
  main_after_run (pa_mainloop_run S fuel (started S (Some name))).
Proof.
  intros Hm Hc Hk. unfold main, main_from, setup_context.
  autounfold with pa_unfold.
  unfold pa_mainloop_new, pa_context_new_with_proplist, pa_context_connect.
  autounfold with pa_unfold. cbn.
  rewrite Hm, Hc, Hk. cbn. reflexivity.
Qed.

Lemma main_setup_fails (fuel : nat) (prog name : string) :
  mainloop_new_ok S && context_new_ok S && connect_ok S = false ->
  exists w,
    main S fuel [prog; name] = Returned 1 w /\
    delivered w = [] /\ quit_req w = None /\
    Forall (fun c => is_context_unref c = false) (calls w) /\
    Forall (fun c => is_mainloop_free c = false) (calls w) /\
    Forall write_flags_ok (calls w) /\
    writes_of (calls w) = [].
Proof.
  intros H. unfold main, main_from, setup_context.
  autounfold with pa_unfold.
  unfold pa_mainloop_new, pa_context_new_with_proplist, pa_context_connect.
  autounfold with pa_unfold. cbn.
  destruct (mainloop_new_ok S); cbn;
    [destruct (context_new_ok S); cbn;
       [destruct (connect_ok S); cbn; [discriminate|]|]|];
    (eexists; split; [reflexivity|]); cbn;
    repeat split; repeat constructor.
Qed.

Lemma main_wrong_argc (fuel : nat) (argv : list string) :
  length argv <> 2%nat ->
  exists w,
    main S fuel argv = Returned 0 w /\
    stdout w = [usage (nth_error argv 0)] /\
    calls w = [] /\ delivered w = [] /\ pending w = [] /\
    quit_req w = None /\ ctx_state w = PA_CONTEXT_UNCONNECTED.
Proof.
  intros H. unfold main, main_from.
  destruct (Z.eqb_spec (Z.of_nat (length argv)) 2) as [E|E]; [lia|].
  cbn [negb]. eexists. split; [reflexivity|]. cbn. repeat split; reflexivity.
Qed.

(** The trace of a run of the program on one argument: the calls of the loop
    stand between those of the setup and those of the teardown, and the
    writes are all among them. *)
Lemma main_trace (fuel : nat) (prog name : string) (w : World) :
  outcome_world (main S fuel [prog; name]) = Some w ->
  exists pre cs post,
    calls w = pre ++ cs ++ post /\
    writes_of pre = [] /\ writes_of post = [] /\
    Forall write_flags_ok pre /\ Forall write_flags_ok post /\
    Forall write_flags_ok cs /\
    Forall (restore_userdata (Some name)) (delivered w) /\
    writes_of cs = retargeted (delivered w).
Proof.
  destruct (mainloop_new_ok S && context_new_ok S && connect_ok S) eqn:Hok.
  - apply andb_prop in Hok. destruct Hok as [Hok Hk].
    apply andb_prop in Hok. destruct Hok as [Hm Hc].
    rewrite (main_enters_loop fuel prog name Hm Hc Hk).
    assert (Hinv : forall w3,
               loop_world (pa_mainloop_run S fuel (started S (Some name))) = Some w3 ->
               run_inv (Some name) (started S (Some name)) w3).
    { intros w3. apply run_inv_loop. apply run_inv_init; [reflexivity|].
      cbn. apply Forall_forall. intros ev Hin.
      apply in_map_iff in Hin. destruct Hin as (st & <- & _). exact I. }
    destruct (pa_mainloop_run S fuel (started S (Some name))) as [r w3|w3|w3|w3|];
      cbn; intros [= <-];
      destruct (Hinv w3 eq_refl)
        as (_ & _ & cs & dl & Hcs & Hdl & Hfl & _ & Hud & Hwr);
      cbn in Hcs, Hdl; subst dl;
      exists (setup_calls ++ [c_context_set_state_callback (Some name)]), cs;
      [ exists teardown_calls | exists [] | exists [] | exists [] ];
      cbn; rewrite ?app_nil_r, Hcs; cbn; rewrite <- ?app_assoc; cbn;
      repeat split; auto; repeat constructor.
  - destruct (main_setup_fails fuel prog name Hok)
      as (w1 & Hmain & Hdl & _ & _ & _ & Hfl & Hwr).
    rewrite Hmain. cbn. intros H. inversion H; subst; clear H.
    exists (calls w), [], []. rewrite Hdl, !app_nil_r.
    repeat split; auto; constructor.
Qed.


(** C2. In every run of the program on a device name, however far it got,
    the write requests are, in order, one per record the enumeration
    delivered: as many writes as records, none merged or reordered, each
    written record with the device name as its target device and the name,
    channel map, volume and mute flag of the record read. *)
Theorem every_delivered_record_written_once (fuel : nat) (prog name : string)
    (w : World) :
  outcome_world (main S fuel [prog; name]) = Some w ->
  length (writes_of (calls w)) = length (records_delivered (delivered w)) /\
  Forall2 (migrated name) (writes_of (calls w)) (records_delivered (delivered w)).
Proof.
  intros H.
  destruct (main_trace fuel prog name w H)
    as (pre & cs & post & Hcalls & Hpre & Hpost & _ & _ & _ & Hud & Hwr).
  assert (Hw : writes_of (calls w) =
               map (retarget (Some name)) (records_delivered (delivered w))).
  { rewrite Hcalls, !writes_of_app, Hpre, Hpost, app_nil_r, Hwr. cbn.
    apply retargeted_same. exact Hud. }
  rewrite Hw. split; [apply length_map|apply retarget_migrated].
Qed.

(** C9. In every run of the program, every call of
    [pa_ext_stream_restore_write] is in replace mode, of one record, with the
    apply-immediately flag set. *)
Theorem every_write_replaces_and_applies (fuel : nat) (argv : list string)
    (w : World) :
  outcome_world (main S fuel argv) = Some w ->
  Forall write_flags_ok (calls w).
Proof.
  intros H.
  destruct argv as [|prog [|name [|extra argv]]].
  4: destruct (main_wrong_argc fuel (prog :: name :: extra :: argv))
       as (w1 & Hmain & _ & Hcalls & _); [cbn; lia|].
  3: { destruct (main_trace fuel prog name w H)
         as (pre & cs & post & Hcalls & _ & _ & Hfpre & Hfpost & Hfcs & _).
       rewrite Hcalls. repeat (apply Forall_app; split); assumption. }
  1: destruct (main_wrong_argc fuel []) as (w1 & Hmain & _ & Hcalls & _);
       [cbn; lia|].
  2: destruct (main_wrong_argc fuel [prog]) as (w1 & Hmain & _ & Hcalls & _);
       [cbn; lia|].
  all: rewrite Hmain in H; cbn in H; inversion H; subst;
       rewrite Hcalls; constructor.
Qed.

(** C7. With any number of arguments other than one, [main] prints the
    banner, the copyright line, an empty line and the usage line that names
    the program as it was called (the text of main.c:183-187, every line
    ended by a line feed), and returns 0; no library call is made, so no
    connection is attempted.  With no [argv[0]] at all the name is printed
    as (null). *)
Theorem wrong_argument_count_prints_usage (fuel : nat) (argv : list string) :
  length argv <> 2%nat ->
  exists w,
    main S fuel argv = Returned 0 w /\
    stdout w =
      [("PulseAudio commandline sink switcher" ++ String "010" EmptyString ++
        "Copyright (C) 2012 by Tomaz Solc <tomaz.solc@tablix.org>" ++
        String "010" EmptyString ++ String "010" EmptyString ++
        "USAGE: " ++
        match argv with
        | argv0 :: _ => argv0
        | [] => "(null)"
        end ++
        " [ sink ]" ++ String "010" EmptyString)%string] /\
    calls w = [] /\
    ctx_state w = PA_CONTEXT_UNCONNECTED.
Proof.
  intros H.
  destruct (main_wrong_argc fuel argv H) as (w & Hmain & Hout & Hcalls & _ & _ & _ & Hst).
  exists w. repeat split; try assumption.
  rewrite Hout. destruct argv as [|argv0 argv]; reflexivity.
Qed.

(** C8, as the code has it.  When [main] returns after the loop stopped on a
    quit request (the returned world still holds the request), the program
    was given one argument, the calls are those of the setup, ending in the
    connect, then the run of the loop, which neither creates nor releases
    either object, then disconnect, context unref and main-loop free: each
    object is released exactly once, whatever the exit code. *)
Theorem quit_path_releases_each_once (fuel : nat) (argv : list string)
    (code : Z) (w : World) :
  main S fuel argv = Returned code w ->
  quit_req w <> None ->
  exists prog name run,
    argv = [prog; name] /\
    quit_req w = Some code /\
    calls w = setup_calls ++ [c_context_set_state_callback (Some name)]
              ++ run ++ teardown_calls /\
    Forall (fun c => lifecycle c = false) run /\
    count is_context_unref (calls w) = 1%nat /\
    count is_mainloop_free (calls w) = 1%nat /\
    released_once S (calls w).
Proof.
  intros H Hquit.
  destruct argv as [|prog [|name [|extra argv]]].
  4: destruct (main_wrong_argc fuel (prog :: name :: extra :: argv))
       as (w1 & Hmain & _ & _ & _ & _ & Hq & _); [cbn; lia|].
  1: destruct (main_wrong_argc fuel []) as (w1 & Hmain & _ & _ & _ & _ & Hq & _);
       [cbn; lia|].
  2: destruct (main_wrong_argc fuel [prog]) as (w1 & Hmain & _ & _ & _ & _ & Hq & _);
       [cbn; lia|].
  1, 2, 4: rewrite Hmain in H; inversion H; subst; contradiction.
  destruct (mainloop_new_ok S && context_new_ok S && connect_ok S) eqn:Hok.
  2: { destruct (main_setup_fails fuel prog name Hok) as (w1 & Hmain & _ & Hq & _).
       rewrite Hmain in H. inversion H; subst. contradiction. }
  apply andb_prop in Hok. destruct Hok as [Hok Hk].
  apply andb_prop in Hok. destruct Hok as [Hm Hc].
  rewrite (main_enters_loop fuel prog name Hm Hc Hk) in H.
  destruct (pa_mainloop_run S fuel (started S (Some name)))
    as [r w3|w3|w3|w3|] eqn:Hrun; cbn in H; try discriminate.
  2: { apply run_error_no_quit in Hrun. inversion H; subst.
       cbn in Hquit. contradiction. }
  pose proof (run_quit_value _ _ _ _ Hrun) as Hr.
  assert (Hinv : run_inv (Some name) (started S (Some name)) w3).
  { apply (run_inv_loop (Some name) _ fuel (started S (Some name))).
    - apply run_inv_init; [reflexivity|].
      cbn. apply Forall_forall. intros ev Hin.
      apply in_map_iff in Hin. destruct Hin as (st & <- & _). exact I.
    - rewrite Hrun. reflexivity. }
  destruct Hinv as (_ & _ & run & dl & Hcs & _ & _ & Hlc & _).
  inversion H; subst; clear H. cbn in Hcs.
  assert (Hcalls :
    (((calls w3 ++ [c_context_disconnect]) ++ [c_context_unref])
       ++ [c_signal_done]) ++ [c_mainloop_free] =
    setup_calls ++ [c_context_set_state_callback (Some name)]
      ++ run ++ teardown_calls).
  { rewrite Hcs. unfold teardown_calls. cbn. rewrite <- !app_assoc. reflexivity. }
  assert (Hunref : count is_context_unref run = 0%nat).
  { apply count_none. eapply Forall_impl; [|exact Hlc].
    intros c; destruct c; cbn; congruence. }
  assert (Hfree : count is_mainloop_free run = 0%nat).
  { apply count_none. eapply Forall_impl; [|exact Hlc].
    intros c; destruct c; cbn; congruence. }
  assert (Hcnew : count is_context_new run = 0%nat).
  { apply count_none. eapply Forall_impl; [|exact Hlc].
    intros c; destruct c; cbn; congruence. }
  assert (Hmnew : count is_mainloop_new run = 0%nat).
  { apply count_none. eapply Forall_impl; [|exact Hlc].
    intros c; destruct c; cbn; congruence. }
  exists prog, name, run. cbn [calls quit_req].
  unfold released_once. cbn [calls]. rewrite Hcalls, Hm, Hc.
  rewrite !count_app, Hunref, Hfree, Hcnew, Hmnew.
  repeat split; try reflexivity; assumption.
Qed.




(** *** A run in which nothing fails *)

Lemma records_delivered_quiet (q : list loop_event) :
  Forall quiet q -> records_delivered q = [].
Proof.
  induction 1 as [|ev q Hev _ IH]; [reflexivity|].
  destruct ev as [st|s|info eol ud|]; cbn in *; try contradiction; exact IH.
Qed.

(** The records of the enumeration, one after the other: each is written,
    and the completions of the writes queue up behind what was pending. *)
Lemma run_records (name : cstr) (rs : list pa_ext_stream_restore_info) :
  forall (rest : list loop_event) (w : World) (fuel : nat),
    (forall k, poll_error S k = false) ->
    quit_req w = None ->
    pending w = map (fun r => EvRestore (Some r) 0 name) rs ++ rest ->
    (forall k, (n_ops w <= k < n_ops w + length rs)%nat ->
               op_created S k = true /\ op_success S k <> 0) ->
    exists w' compl,
      pa_mainloop_run S (length rs + fuel) w = pa_mainloop_run S fuel w' /\
      quit_req w' = None /\ state_cb w' = state_cb w /\ stdout w' = stdout w /\
      pending w' = rest ++ compl /\ Forall quiet compl /\
      length compl = length rs /\
      writes_of (calls w') = writes_of (calls w) ++ map (retarget name) rs /\
      records_delivered (delivered w') = records_delivered (delivered w) ++ rs.
Proof.
  induction rs as [|r rs IH]; intros rest w fuel Hpoll Hquit Hpend Hops.
  - exists w, []. cbn in Hpend. rewrite !app_nil_r.
    repeat split; auto.
  - cbn [map app] in Hpend. cbn [length Nat.add].
    rewrite (run_step _ _ _ _ Hquit (Hpoll _) Hpend).
    set (w0 := take_event (EvRestore (Some r) 0 name)
                 (map (fun r => EvRestore (Some r) 0 name) rs ++ rest) w).
    change (dispatch S (EvRestore (Some r) 0 name) w0)
      with (stream_restore_cb S (Some r) 0 name w0).
    destruct (stream_restore_cb_record r name w0)
      as (w1 & Hd & Hc & Hp & Hout & Hq & Hcb & Hdl & _ & _ & Hn).
    destruct (Hops (n_ops w)) as [Hop Hs]; [cbn; lia|].
    change (n_ops w0) with (n_ops w) in *.
    rewrite Hop in Hc, Hp, Hout.
    rewrite Hd.
    destruct (IH (rest ++ [EvSuccess (op_success S (n_ops w))]) w1 fuel)
      as (w' & compl & Hrun & Hq' & Hcb' & Hout' & Hp' & Hquiet & Hlen & Hwr & Hrd);
      auto.
    + rewrite Hq. exact Hquit.
    + rewrite Hp. subst w0. cbn. rewrite <- app_assoc. reflexivity.
    + intros k Hk. apply Hops. cbn. lia.
    + exists w', (EvSuccess (op_success S (n_ops w)) :: compl).
      split; [exact Hrun|].
      split; [exact Hq'|].
      split; [rewrite Hcb', Hcb; reflexivity|].
      split; [rewrite Hout', Hout; subst w0; cbn; apply app_nil_r|].
      split; [rewrite Hp', <- app_assoc; reflexivity|].
      split; [constructor; [exact Hs|exact Hquiet]|].
      split; [cbn; rewrite Hlen; reflexivity|].
      split.
      * rewrite Hwr, Hc, writes_of_app. subst w0. cbn.
        rewrite <- app_assoc. reflexivity.
      * rewrite Hrd, Hdl. subst w0. cbn.
        rewrite records_delivered_app, <- app_assoc. reflexivity.
Qed.

(** X1. The whole migration.  When the handshake reaches Ready, every operation
    up to the last write is created and completes with success, the program
    returns 0 having written, in order, the copy of every record of the
    service with the device name as target, and having printed nothing. *)
Theorem main_migrates_every_record (prog name : string)
    (pre : list pa_context_state_t) :
  mainloop_new_ok S = true -> context_new_ok S = true -> connect_ok S = true ->
  (forall k, poll_error S k = false) ->
  handshake S = pre ++ [PA_CONTEXT_READY] ->
  Forall quiet (map EvState pre) ->
  enum_fails S = false ->
  (forall k, (k < 2 + length (records S))%nat ->
             op_created S k = true /\ op_success S k <> 0) ->
  exists w,
    main S (length pre + 2 * length (records S) + 6) [prog; name] = Returned 0 w /\
    writes_of (calls w) = map (retarget (Some name)) (records S) /\
    records_delivered (delivered w) = records S /\
    stdout w = [].
Proof.
  intros Hm Hc Hk Hpoll Hhs Hpre Henum Hops.
  rewrite (main_enters_loop _ prog name Hm Hc Hk).
  replace (length pre + 2 * length (records S) + 6)%nat
    with (length (map EvState pre) +
          Datatypes.S (Datatypes.S (length (records S) +
            Datatypes.S (length (records S) + 3 + 0))))%nat
    by (rewrite length_map; lia).
  (* the handshake up to Ready *)
  rewrite (run_quiet (map EvState pre) [EvState PA_CONTEXT_READY])
    by (auto; cbn; rewrite Hhs, map_app; reflexivity).
  (* Ready: both requests *)
  destruct (Hops 0%nat) as [Hop0 Hs0]; [lia|].
  destruct (Hops 1%nat) as [Hop1 _]; [lia|].
  erewrite run_step by (cbn; auto).
  run_cb. rewrite Hop0. cbn. rewrite Hop1. cbn.
  unfold enumeration. rewrite Henum.
  (* the default sink is set *)
  erewrite run_step by (cbn; auto).
  run_cb. destruct (Z.eqb_spec (op_success S 0) 0) as [E|_]; [contradiction|].
  cbn.
  (* the records *)
  match goal with
  | |- context [pa_mainloop_run S _ ?w0] =>
      destruct (run_records (Some name) (records S)
                  [EvRestore None 1 (Some name)] w0
                  (Datatypes.S (length (records S) + 3 + 0)) Hpoll eq_refl eq_refl)
        as (w' & compl & Hrun & Hq & Hcb & Hout & Hp & Hquiet & Hlen & Hwr & Hrd)
  end.
  { intros k Hk'. apply Hops. cbn in Hk'. lia. }
  rewrite Hrun. cbn in Hcb, Hout, Hwr, Hrd.
  (* the end-of-list marker *)
  rewrite (run_step _ _ _ _ Hq (Hpoll _) Hp).
  unfold dispatch, stream_restore_cb. cbn [Z.eqb negb].
  match goal with
  | |- context [drain S ?w0] =>
      destruct (drain_to_quit (Some name) w0 Hcb Hq Hpoll Hquiet)
        as (w1 & w2 & Hd & _ & Hrun2 & _ & Hcalls & Hdl & Hout2)
  end.
  rewrite Hd. cbn in Hrun2. rewrite Hlen in Hrun2. rewrite (Hrun2 0%nat).
  cbn in Hcalls, Hdl, Hout2.
  eexists. split; [reflexivity|]. cbn.
  rewrite Hcalls, Hdl, Hout2, Hout.
  rewrite !writes_of_app, !records_delivered_app, Hwr, Hrd.
  rewrite !records_delivered_app.
  rewrite (records_delivered_quiet compl Hquiet).
  rewrite (records_delivered_quiet (map EvState pre) Hpre).
  destruct (op_created S (n_ops w')); cbn; rewrite ?app_nil_r;
    repeat split; reflexivity.
Qed.


(** *** Failures *)

(** The sibling paths of a refused write.  When the set-default-sink
    operation cannot be created, [set_default_sink] returns -1 and the state
    callback asks the loop to stop with 1. *)
Lemma ready_first_request_refused (name : cstr) (w : World) :
  ctx_state w = PA_CONTEXT_READY ->
  op_created S (n_ops w) = false ->
  exists w', context_state_callback S name w = Ok tt w' /\
    quit_req w' = Some 1 /\
    stdout w' = stdout w ++
      [("pa_context_set_default_sink() failed: " ++ errstr S ++ nl)%string;
       ("set_default_sink() failed" ++ nl)%string] /\
    calls w' = calls w ++ [c_context_set_default_sink name].
Proof.
  intros Hst Hop. run_cb. rewrite Hst, Hop. cbn.
  eexists. split; [reflexivity|]. cbn. rewrite <- !app_assoc.
  repeat split; reflexivity.
Qed.

(** When the enumeration cannot be created, likewise. *)
Lemma ready_second_request_refused (name : cstr) (w : World) :
  ctx_state w = PA_CONTEXT_READY ->
  op_created S (n_ops w) = true ->
  op_created S (Datatypes.S (n_ops w)) = false ->
  exists w', context_state_callback S name w = Ok tt w' /\
    quit_req w' = Some 1 /\
    stdout w' = stdout w ++
      [("pa_ext_stream_restore_read() failed: " ++ errstr S ++ nl)%string;
       ("set_default_sink() failed" ++ nl)%string].
Proof.
  intros Hst Hop0 Hop1. run_cb. rewrite Hst, Hop0. cbn. rewrite Hop1. cbn.
  eexists. split; [reflexivity|]. cbn. rewrite <- !app_assoc.
  repeat split; reflexivity.
Qed.

(** A refused write only prints: the quit request of the loop is left as it
    was. *)
Lemma write_refused_only_prints (i : pa_ext_stream_restore_info)
    (userdata : cstr) (w : World) :
  op_created S (n_ops w) = false ->
  exists w', stream_restore_cb S (Some i) 0 userdata w = Ok tt w' /\
    quit_req w' = quit_req w /\
    stdout w' = stdout w ++
      [("pa_ext_stream_restore_write() failed: " ++ errstr S ++ nl)%string] /\
    pending w' = pending w.
Proof.
  intros Hop.
  destruct (stream_restore_cb_record i userdata w)
    as (w' & Hd & _ & Hp & Hout & Hq & _).
  rewrite Hop in Hp, Hout. rewrite app_nil_r in Hp.
  exists w'. repeat split; assumption.
Qed.

(** X2. A service that cannot be reached: the handshake ends in Failed, and the
    program prints the error and returns 1 as soon as the notification is
    delivered. *)
Theorem main_unreachable_exits_1 (prog name : string)
    (pre : list pa_context_state_t) (post : list pa_context_state_t) :
  mainloop_new_ok S = true -> context_new_ok S = true -> connect_ok S = true ->
  (forall k, poll_error S k = false) ->
  handshake S = pre ++ PA_CONTEXT_FAILED :: post ->
  Forall quiet (map EvState pre) ->
  exists w,
    main S (length pre + 2) [prog; name] = Returned 1 w /\
    stdout w = [("connection failure: " ++ errstr S ++ nl)%string] /\
    writes_of (calls w) = [].
Proof.
  intros Hm Hc Hk Hpoll Hhs Hpre.
  rewrite (main_enters_loop _ prog name Hm Hc Hk).
  rewrite <- (length_map EvState pre).
  rewrite (run_quiet (map EvState pre)
             (EvState PA_CONTEXT_FAILED :: map EvState post))
    by (auto; cbn; rewrite Hhs, map_app; reflexivity).
  destruct (run_failed (Some name)
              (after_quiet (map EvState pre)
                 (EvState PA_CONTEXT_FAILED :: map EvState post)
                 (started S (Some name)))
              (map EvState post) 0 eq_refl eq_refl (Hpoll _) eq_refl)
    as (w' & Hrun & Hout & Hcalls & _).
  rewrite Hrun. unfold main_after_run, teardown. run_cb.
  eexists. split; [reflexivity|]. cbn in *.
  rewrite Hout, Hcalls, !writes_of_app. split; reflexivity.
Qed.


(** ** Beyond the claims: how a run ends *)

(** *** Exit statuses and the end of the enumeration *)

Lemma enumeration_restores (userdata : cstr) (ev : loop_event) :
  In ev (enumeration S userdata) ->
  exists info eol, ev = EvRestore info eol userdata.
Proof.
  unfold enumeration. destruct (enum_fails S).
  - intros [<-|[]]. eauto.
  - rewrite in_app_iff. intros [Hin|[<-|[]]]; [|eauto].
    apply in_map_iff in Hin. destruct Hin as (r & <- & _). eauto.
Qed.

Ltac no_restore :=
  match goal with
  | H : In _ (enumeration S _) |- _ =>
      apply enumeration_restores in H; destruct H as (? & ? & H); discriminate H
  end.

Ltac closing_done H :=
  inversion H; subst; clear H; cbn;
  split; [reflexivity|];
  eexists; eexists;
  split; [grown|]; split; [grown|];
  cbn; rewrite ?in_app_iff; cbn;
  repeat split; intros;
  repeat match goal with
         | Hor : _ \/ _ |- _ => destruct Hor
         | Hf : False |- _ => destruct Hf
         end;
  try discriminate; try no_restore; auto 6.

(** What one dispatch may do towards the end of the run: it asks for exit
    status 0 on the Terminated notification only, and for 1 otherwise; it
    disconnects, or schedules Terminated, on a drain completion or on the end
    of the enumeration only; and the end of the enumeration requests the
    drain. *)
Lemma dispatch_closing (ev : loop_event) (w w' : World) :
  dispatch S ev w = Ok tt w' ->
  delivered w' = delivered w /\
  exists cs new,
    calls w' = calls w ++ cs /\
    pending w' = pending w ++ new /\
    (quit_req w' = quit_req w \/ quit_req w' = Some 1 \/
     (quit_req w' = Some 0 /\ ev = EvState PA_CONTEXT_TERMINATED)) /\
    (In c_context_disconnect cs -> ev = EvDrained \/ is_eol ev) /\
    (In (EvState PA_CONTEXT_TERMINATED) new -> ev = EvDrained \/ is_eol ev) /\
    (In EvDrained new -> is_eol ev) /\
    (is_eol ev -> In c_context_drain cs).
Proof.
  intros H.
  destruct w as [st cb pd qr out cs0 dl n it].
  destruct ev as [s|success|info eol ud|].
  - destruct cb as [name|];
      [|autounfold with pa_unfold in H; cbn in H; closing_done H].
    destruct s; autounfold with pa_unfold in H; cbn in H;
      try (closing_done H).
    destruct (op_created S n); cbn in H; [|closing_done H].
    destruct (op_created S (Datatypes.S n)); cbn in H; closing_done H.
  - autounfold with pa_unfold in H; cbn in H.
    destruct (success =? 0); cbn in H; closing_done H.
  - cbn [is_eol]. autounfold with pa_unfold in H.
    destruct (Z.eqb_spec eol 0) as [E|E]; cbn in H.
    + destruct info as [i|]; cbn in H; [|discriminate].
      destruct (op_created S n); cbn in H; closing_done H.
    + destruct (op_created S n); cbn in H; closing_done H.
  - autounfold with pa_unfold in H; cbn in H. closing_done H.
Qed.

(** A property every dispatch preserves holds in whatever world the loop
    stops. *)
Lemma run_preserves (P : World -> Prop) :
  (forall ev rest w w',
      P w -> quit_req w = None -> pending w = ev :: rest ->
      dispatch S ev (take_event ev rest w) = Ok tt w' -> P w') ->
  forall fuel w w',
    P w -> loop_world (pa_mainloop_run S fuel w) = Some w' -> P w'.
Proof.
  intros Hstep fuel.
  induction fuel as [|fuel IH]; intros w w' HP H.
  - cbn in H. inversion H; subst. exact HP.
  - unfold pa_mainloop_run in H; fold pa_mainloop_run in H.
    destruct (quit_req w) eqn:Hq; [inversion H; subst; exact HP|].
    destruct (poll_error S (iter w)); [inversion H; subst; exact HP|].
    destruct (pending w) as [|ev rest] eqn:Hev; [inversion H; subst; exact HP|].
    destruct (dispatch S ev (take_event ev rest w)) as [[] w1|] eqn:Hd;
      [|discriminate].
    apply (IH w1 w'); [|exact H].
    eapply Hstep; eassumption.
Qed.

Lemma quit_0_or_1_step (ev : loop_event) (rest : list loop_event) (w w' : World) :
  quit_0_or_1 w -> quit_req w = None -> pending w = ev :: rest ->
  dispatch S ev (take_event ev rest w) = Ok tt w' -> quit_0_or_1 w'.
Proof.
  intros _ Hq _ Hd.
  destruct (dispatch_closing _ _ _ Hd) as (_ & cs & new & _ & _ & Hquit & _).
  cbn in Hquit. rewrite Hq in Hquit. unfold quit_0_or_1.
  destruct Hquit as [->|[->|[-> _]]]; auto.
Qed.

Lemma closing_step (ev : loop_event) (rest : list loop_event) (w w' : World) :
  (closing w -> enumeration_done w) ->
  quit_req w = None -> pending w = ev :: rest ->
  dispatch S ev (take_event ev rest w) = Ok tt w' ->
  closing w' -> enumeration_done w'.
Proof.
  intros Hinv Hq Hev Hd.
  destruct (dispatch_closing _ _ _ Hd)
    as (Hdl & cs & new & Hcs & Hnew & Hquit & Hdis & Hterm & Hdr & Heol).
  cbn in Hdl, Hcs, Hnew, Hquit.
  assert (Hmono : enumeration_done w -> enumeration_done w').
  { intros [Hc Hd']. split.
    - rewrite Hcs. apply in_or_app. left. exact Hc.
    - rewrite Hdl. apply Exists_app. left. exact Hd'. }
  assert (Hend : is_eol ev -> enumeration_done w').
  { intros He. split.
    - rewrite Hcs. apply in_or_app. right. apply Heol. exact He.
    - rewrite Hdl. apply Exists_app. right. constructor. exact He. }
  assert (Hhead : ev = EvDrained \/ ev = EvState PA_CONTEXT_TERMINATED ->
                  enumeration_done w').
  { intros Hhd. apply Hmono, Hinv. unfold closing. rewrite Hev.
    destruct Hhd as [->| ->]; cbn; auto. }
  assert (Hold : closing w -> enumeration_done w') by (intros; auto).
  unfold closing. rewrite Hcs, Hnew, !in_app_iff.
  intros [[Hin|Hin]|[[Hin|Hin]|[Hz|[Hin|Hin]]]].
  - apply Hold. unfold closing. rewrite Hev. left. right. exact Hin.
  - destruct (Hterm Hin) as [->|He]; auto.
  - apply Hold. unfold closing. rewrite Hev. right. left. right. exact Hin.
  - auto.
  - rewrite Hq in Hquit. destruct Hquit as [Hz'|[Hz'|[_ ->]]];
      [congruence|congruence|auto].
  - apply Hold. unfold closing. auto.
  - destruct (Hdis Hin) as [->|He]; auto.
Qed.

(** X11. The exit status of the program is 0 or 1, whatever the service does. *)
Theorem exit_status_0_or_1 (fuel : nat) (argv : list string)
    (code : Z) (w : World) :
  main S fuel argv = Returned code w ->
  code = 0 \/ code = 1.
Proof.
  intros H.
  destruct argv as [|prog [|name [|extra argv]]].
  4: destruct (main_wrong_argc fuel (prog :: name :: extra :: argv))
       as (w1 & Hmain & _); [cbn; lia|].
  1: destruct (main_wrong_argc fuel []) as (w1 & Hmain & _); [cbn; lia|].
  2: destruct (main_wrong_argc fuel [prog]) as (w1 & Hmain & _); [cbn; lia|].
  1, 2, 4: rewrite Hmain in H; inversion H; auto.
  destruct (mainloop_new_ok S && context_new_ok S && connect_ok S) eqn:Hok.
  2: { destruct (main_setup_fails fuel prog name Hok) as (w1 & Hmain & _).
       rewrite Hmain in H. inversion H; auto. }
  apply andb_prop in Hok. destruct Hok as [Hok Hk].
  apply andb_prop in Hok. destruct Hok as [Hm Hc].
  rewrite (main_enters_loop fuel prog name Hm Hc Hk) in H.
  destruct (pa_mainloop_run S fuel (started S (Some name)))
    as [r w3|w3|w3|w3|] eqn:Hrun; cbn in H; try discriminate.
  2: inversion H; auto.
  pose proof (run_quit_value _ _ _ _ Hrun) as Hr.
  assert (Hq : quit_0_or_1 w3).
  { apply (run_preserves quit_0_or_1 quit_0_or_1_step fuel
             (started S (Some name))).
    - left. reflexivity.
    - rewrite Hrun. reflexivity. }
  inversion H; subst.
  destruct Hq as [Hq|[Hq|Hq]]; rewrite Hr in Hq; inversion Hq; auto.
Qed.

(** X12. Exit status 0 on a device name means the enumeration came to its end:
    unless the service notifies Terminated of its own accord, a run that
    returns 0 has delivered a reply with [eol] set to the enumeration
    callback and has requested the drain. *)
Theorem exit_0_after_end_of_list (fuel : nat) (prog name : string) (w : World) :
  ~ In PA_CONTEXT_TERMINATED (handshake S) ->
  main S fuel [prog; name] = Returned 0 w ->
  In c_context_drain (calls w) /\ Exists is_eol (delivered w).
Proof.
  intros Hhs H.
  destruct (mainloop_new_ok S && context_new_ok S && connect_ok S) eqn:Hok.
  2: { destruct (main_setup_fails fuel prog name Hok) as (w1 & Hmain & _).
       rewrite Hmain in H. discriminate H. }
  apply andb_prop in Hok. destruct Hok as [Hok Hk].
  apply andb_prop in Hok. destruct Hok as [Hm Hc].
  rewrite (main_enters_loop fuel prog name Hm Hc Hk) in H.
  destruct (pa_mainloop_run S fuel (started S (Some name)))
    as [r w3|w3|w3|w3|] eqn:Hrun; cbn in H; try discriminate.
  pose proof (run_quit_value _ _ _ _ Hrun) as Hr.
  assert (Hinv : closing w3 -> enumeration_done w3).
  { apply (run_preserves (fun w => closing w -> enumeration_done w)
             closing_step fuel (started S (Some name))).
    - unfold closing. cbn. rewrite in_map_iff.
      intros [(st & Hst & Hin)|[Hin|[Hq|Hin]]].
      + inversion Hst; subst. contradiction.
      + apply in_map_iff in Hin. destruct Hin as (st & Hst & _). discriminate.
      + discriminate.
      + repeat (destruct Hin as [Hin|Hin]; [discriminate|]). destruct Hin.
    - rewrite Hrun. reflexivity. }
  inversion H; subst; clear H. cbn.
  destruct Hinv as [Hc' Hd'].
  { unfold closing. right. right. left. exact Hr. }
  split; [|exact Hd'].
  rewrite !in_app_iff. auto.
Qed.


(** *** The ways a run fails *)

(** [main] after a loop that stopped on a quit request: the teardown, and the
    value requested as exit status. *)
Lemma main_returns_quit (fuel : nat) (prog name : string) (r : Z) (w' : World) :
  mainloop_new_ok S = true -> context_new_ok S = true -> connect_ok S = true ->
  pa_mainloop_run S fuel (started S (Some name)) = LQuit r w' ->
  exists w,
    main S fuel [prog; name] = Returned r w /\
    calls w = calls w' ++ teardown_calls /\
    stdout w = stdout w' /\
    delivered w = delivered w'.
Proof.
  intros Hm Hc Hk Hrun.
  rewrite (main_enters_loop fuel prog name Hm Hc Hk), Hrun.
  unfold main_after_run, teardown. run_cb.
  eexists. split; [reflexivity|]. cbn. rewrite <- !app_assoc.
  repeat split; reflexivity.
Qed.

(** X3. A failed setup: [setup_context] stops at the step that fails, and [main]
    returns 1 after the message of that step and its own.  The state callback
    is never set and no request is made; when the context cannot be created
    the property list is not freed. *)
Theorem setup_failure_exits_1 (fuel : nat) (prog name : string) :
  mainloop_new_ok S && context_new_ok S && connect_ok S = false ->
  exists w,
    main S fuel [prog; name] = Returned 1 w /\
    state_cb w = None /\ delivered w = [] /\
    stdout w =
      [(if negb (mainloop_new_ok S) then "pa_mainloop_new() failed." ++ nl
        else if negb (context_new_ok S) then "pa_context_new() failed." ++ nl
        else "pa_context_connect() failed: " ++ errstr S ++ nl)%string;
       ("can't get pulseaudio context." ++ nl)%string] /\
    calls w =
      (if negb (mainloop_new_ok S) then [c_mainloop_new]
       else if negb (context_new_ok S) then
         [c_mainloop_new; c_mainloop_get_api; c_proplist_new;
          c_proplist_sets PA_PROP_APPLICATION_NAME "Commandline sink switcher";
          c_proplist_sets PA_PROP_APPLICATION_ID "org.tablix.paswitch";
          c_context_new_with_proplist]
       else setup_calls).
Proof.
  intros H. unfold main, main_from, setup_context.
  autounfold with pa_unfold.
  unfold pa_mainloop_new, pa_context_new_with_proplist, pa_context_connect.
  autounfold with pa_unfold. cbn.
  destruct (mainloop_new_ok S); cbn;
    [destruct (context_new_ok S); cbn;
       [destruct (connect_ok S); cbn; [discriminate|]|]|];
    (eexists; split; [reflexivity|]); cbn;
    repeat split; reflexivity.
Qed.

(** The loop up to the Ready notification, and the state callback on it. *)
Lemma run_to_ready (fuel : nat) (name : string)
    (pre post : list pa_context_state_t) :
  (forall k, poll_error S k = false) ->
  handshake S = pre ++ PA_CONTEXT_READY :: post ->
  Forall quiet (map EvState pre) ->
  exists w0,
    pa_mainloop_run S (length pre + Datatypes.S fuel) (started S (Some name)) =
    match context_state_callback S (Some name) w0 with
    | Ok _ w' => pa_mainloop_run S fuel w'
    | Fault => LFault
    end /\
    ctx_state w0 = PA_CONTEXT_READY /\ state_cb w0 = Some (Some name) /\
    pending w0 = map EvState post /\ quit_req w0 = None /\ stdout w0 = [] /\
    calls w0 = setup_calls ++ [c_context_set_state_callback (Some name)] /\
    delivered w0 = map EvState pre ++ [EvState PA_CONTEXT_READY] /\
    n_ops w0 = 0%nat.
Proof.
  intros Hpoll Hhs Hpre.
  rewrite <- (length_map EvState pre).
  rewrite (run_quiet (map EvState pre)
             (EvState PA_CONTEXT_READY :: map EvState post))
    by (auto; cbn; rewrite Hhs, map_app; reflexivity).
  erewrite run_step by (cbn; auto).
  unfold dispatch, bind, set_ctx_state. cbn [state_cb after_quiet take_event].
  eexists. split; [reflexivity|]. cbn. repeat split; reflexivity.
Qed.

(** X4. The set-default-sink operation cannot be created: the enumeration is
    never requested, and the program returns 1 after the two messages. *)
Theorem first_request_refused_exits_1 (prog name : string)
    (pre post : list pa_context_state_t) :
  mainloop_new_ok S = true -> context_new_ok S = true -> connect_ok S = true ->
  (forall k, poll_error S k = false) ->
  handshake S = pre ++ PA_CONTEXT_READY :: post ->
  Forall quiet (map EvState pre) ->
  op_created S 0 = false ->
  exists w,
    main S (length pre + 2) [prog; name] = Returned 1 w /\
    stdout w =
      [("pa_context_set_default_sink() failed: " ++ errstr S ++ nl)%string;
       ("set_default_sink() failed" ++ nl)%string] /\
    calls w = setup_calls ++
      [c_context_set_state_callback (Some name);
       c_context_set_default_sink (Some name)] ++ teardown_calls.
Proof.
  intros Hm Hc Hk Hpoll Hhs Hpre Hop.
  destruct (run_to_ready 1 name pre post Hpoll Hhs Hpre)
    as (w0 & Hrun & Hst & _ & _ & Hq & Hout & Hcalls & _ & Hn).
  rewrite <- Hn in Hop.
  destruct (ready_first_request_refused (Some name) w0 Hst Hop)
    as (w1 & Hcb & Hq1 & Hout1 & Hcalls1).
  rewrite Hcb, (run_quit 0 w1 1 Hq1) in Hrun.
  destruct (main_returns_quit _ prog name 1 w1 Hm Hc Hk Hrun)
    as (w & Hmain & Hcw & How & _).
  exists w. split; [exact Hmain|].
  rewrite Hcw, How, Hcalls1, Hout1, Hcalls, Hout, <- !app_assoc.
  split; reflexivity.
Qed.

(** X5. The enumeration cannot be created: the default sink has been requested
    all the same, nothing is written, and the program returns 1. *)
Theorem second_request_refused_exits_1 (prog name : string)
    (pre post : list pa_context_state_t) :
  mainloop_new_ok S = true -> context_new_ok S = true -> connect_ok S = true ->
  (forall k, poll_error S k = false) ->
  handshake S = pre ++ PA_CONTEXT_READY :: post ->
  Forall quiet (map EvState pre) ->
  op_created S 0 = true ->
  op_created S 1 = false ->
  exists w,
    main S (length pre + 2) [prog; name] = Returned 1 w /\
    stdout w =
      [("pa_ext_stream_restore_read() failed: " ++ errstr S ++ nl)%string;
       ("set_default_sink() failed" ++ nl)%string] /\
    calls w = setup_calls ++
      [c_context_set_state_callback (Some name);
       c_context_set_default_sink (Some name); c_operation_unref 0%nat;
       c_ext_stream_restore_read (Some name)] ++ teardown_calls /\
    writes_of (calls w) = [].
Proof.
  intros Hm Hc Hk Hpoll Hhs Hpre Hop0 Hop1.
  destruct (run_to_ready 1 name pre post Hpoll Hhs Hpre)
    as (w0 & Hrun & Hst & _ & _ & Hq & Hout & Hcalls & _ & Hn).
  rewrite <- Hn in Hop0, Hop1.
  destruct (ready_runs (Some name) w0 Hst Hop0)
    as (w1 & Hcb & Hcalls1 & _ & Hq1 & _).
  destruct (ready_second_request_refused (Some name) w0 Hst Hop0 Hop1)
    as (w1' & Hcb' & _ & Hout1).
  rewrite Hcb in Hcb'. inversion Hcb'; subst w1'; clear Hcb'.
  rewrite Hop1 in Hcalls1, Hq1.
  rewrite Hcb, (run_quit 0 w1 1 Hq1) in Hrun.
  destruct (main_returns_quit _ prog name 1 w1 Hm Hc Hk Hrun)
    as (w & Hmain & Hcw & How & _).
  exists w. split; [exact Hmain|].
  rewrite Hcw, How, Hcalls1, Hout1, Hcalls, Hout, Hn, <- !app_assoc.
  repeat split; reflexivity.
Qed.

(** A completion that reports failure, at the head of what is pending: the
    error string is printed and the loop stops with 1; no call is made, and
    what was pending behind it stays undelivered. *)
Lemma run_completion_failed (w : World) (rest : list loop_event) (fuel : nat) :
  quit_req w = None ->
  poll_error S (iter w) = false ->
  pending w = EvSuccess 0 :: rest ->
  exists w',
    pa_mainloop_run S (Datatypes.S (Datatypes.S fuel)) w = LQuit 1 w' /\
    stdout w' = stdout w ++ [(errstr S ++ nl)%string] /\
    calls w' = calls w /\
    pending w' = rest /\
    delivered w' = delivered w ++ [EvSuccess 0].
Proof.
  intros Hquit Hpoll Hpend.
  rewrite (run_step _ _ _ _ Hquit Hpoll Hpend).
  run_cb.
  rewrite run_quit with (retval := 1) by reflexivity.
  eexists. split; [reflexivity|]. cbn. repeat split; reflexivity.
Qed.

(** X6. The service reports that the default sink could not be set: the program
    prints the error and returns 1; the enumeration was requested already,
    but none of its replies is delivered and nothing is written. *)
Theorem default_sink_rejected_exits_1 (prog name : string)
    (pre : list pa_context_state_t) :
  mainloop_new_ok S = true -> context_new_ok S = true -> connect_ok S = true ->
  (forall k, poll_error S k = false) ->
  handshake S = pre ++ [PA_CONTEXT_READY] ->
  Forall quiet (map EvState pre) ->
  op_created S 0 = true -> op_created S 1 = true ->
  op_success S 0 = 0 ->
  exists w,
    main S (length pre + 3) [prog; name] = Returned 1 w /\
    stdout w = [(errstr S ++ nl)%string] /\
    calls w = setup_calls ++
      [c_context_set_state_callback (Some name);
       c_context_set_default_sink (Some name); c_operation_unref 0%nat;
       c_ext_stream_restore_read (Some name); c_operation_unref 1%nat]
      ++ teardown_calls /\
    records_delivered (delivered w) = [].
Proof.
  intros Hm Hc Hk Hpoll Hhs Hpre Hop0 Hop1 Hs0.
  destruct (run_to_ready 2 name pre [] Hpoll Hhs Hpre)
    as (w0 & Hrun & Hst & _ & Hp & Hq & Hout & Hcalls & Hdl & Hn).
  rewrite <- Hn in Hop0. pose proof Hop1 as Hop1'. rewrite <- Hn in Hop1'.
  destruct (ready_runs (Some name) w0 Hst Hop0)
    as (w1 & Hcb & Hcalls1 & Hp1 & Hq1 & _ & Hdl1 & _ & Hit1 & _).
  rewrite Hop1' in Hcalls1, Hp1, Hq1. rewrite Hn, Hs0, Hp in Hp1.
  rewrite Hcb in Hrun.
  destruct (run_completion_failed w1 (enumeration S (Some name)) 0
              (eq_trans Hq1 Hq) (Hpoll _) Hp1)
    as (w2 & Hrun2 & Hout2 & Hcalls2 & _ & Hdl2).
  rewrite Hrun2 in Hrun.
  destruct (main_returns_quit _ prog name 1 w2 Hm Hc Hk Hrun)
    as (w & Hmain & Hcw & How & Hdw).
  exists w. split; [exact Hmain|].
  assert (Hout1 : stdout w1 = stdout w0).
  { revert Hcb. run_cb. rewrite Hst, Hop0. cbn. rewrite Hop1'. cbn.
    intros Heq. inversion Heq. reflexivity. }
  rewrite Hcw, How, Hdw, Hcalls2, Hout2, Hdl2, Hcalls1, Hout1, Hdl1,
    Hcalls, Hout, Hdl, Hn, <- !app_assoc.
  rewrite !records_delivered_app, (records_delivered_quiet _ Hpre).
  repeat split; reflexivity.
Qed.


(** Ready with both operations created: the two requests and nothing else. *)
Lemma ready_both_created (name : cstr) (w : World) :
  ctx_state w = PA_CONTEXT_READY ->
  op_created S (n_ops w) = true ->
  op_created S (Datatypes.S (n_ops w)) = true ->
  exists w', context_state_callback S name w = Ok tt w' /\
    calls w' = calls w ++
      [c_context_set_default_sink name; c_operation_unref (n_ops w);
       c_ext_stream_restore_read name; c_operation_unref (Datatypes.S (n_ops w))] /\
    pending w' = pending w ++ EvSuccess (op_success S (n_ops w)) ::
                 enumeration S name /\
    quit_req w' = quit_req w /\ stdout w' = stdout w /\
    state_cb w' = state_cb w /\ delivered w' = delivered w /\
    n_ops w' = Datatypes.S (Datatypes.S (n_ops w)).
Proof.
  intros Hst Hop0 Hop1. run_cb. rewrite Hst, Hop0. cbn. rewrite Hop1. cbn.
  eexists. split; [reflexivity|]. cbn.
  rewrite <- ?app_assoc. cbn. repeat split; reflexivity.
Qed.

(** X8. The enumeration answered by an error: the callback is handed no record
    and a negative [eol], which it takes for the end of the list.  The
    program writes nothing, drains, and returns 0 without a message. *)
Theorem enumeration_error_exits_0 (prog name : string)
    (pre : list pa_context_state_t) :
  mainloop_new_ok S = true -> context_new_ok S = true -> connect_ok S = true ->
  (forall k, poll_error S k = false) ->
  handshake S = pre ++ [PA_CONTEXT_READY] ->
  Forall quiet (map EvState pre) ->
  op_created S 0 = true -> op_created S 1 = true ->
  op_success S 0 <> 0 ->
  enum_fails S = true ->
  exists w,
    main S (length pre + 6) [prog; name] = Returned 0 w /\
    writes_of (calls w) = [] /\
    In c_context_drain (calls w) /\
    In (EvRestore None (-1) (Some name)) (delivered w) /\
    stdout w = [].
Proof.
  intros Hm Hc Hk Hpoll Hhs Hpre Hop0 Hop1 Hs0 Henum.
  destruct (run_to_ready 5 name pre [] Hpoll Hhs Hpre)
    as (w0 & Hrun & Hst & Hcb0 & Hp & Hq & Hout & Hcalls & Hdl & Hn).
  rewrite <- Hn in Hop0, Hop1.
  destruct (ready_both_created (Some name) w0 Hst Hop0 Hop1)
    as (w1 & Hcb & Hcalls1 & Hp1 & Hq1 & Hout1 & Hcb1 & Hdl1 & Hn1).
  rewrite Hcb in Hrun.
  unfold enumeration in Hp1. rewrite Henum, Hp, Hn in Hp1. cbn in Hp1.
  change 5%nat with (length [EvSuccess (op_success S 0)] + 4)%nat in Hrun.
  assert (Hqz : Forall quiet [EvSuccess (op_success S 0)])
    by (constructor; [exact Hs0|constructor]).
  rewrite (run_quiet [EvSuccess (op_success S 0)]
             [EvRestore None (-1) (Some name)] w1 4
             Hqz Hpoll (eq_trans Hq1 Hq) Hp1)
    in Hrun.
  erewrite run_step in Hrun by (cbn; auto; congruence).
  unfold dispatch, stream_restore_cb in Hrun. cbn [Z.eqb negb] in Hrun.
  match type of Hrun with
  | context [drain S ?w3] =>
      destruct (drain_to_quit (Some name) w3
                  (eq_trans Hcb1 Hcb0) (eq_trans Hq1 Hq) Hpoll (Forall_nil _))
        as (w4 & w5 & Hd & _ & Hrun5 & _ & Hcalls5 & Hdl5 & Hout5)
  end.
  rewrite Hd in Hrun. cbn in Hrun5. rewrite (Hrun5 0%nat) in Hrun.
  destruct (main_returns_quit _ prog name 0 w5 Hm Hc Hk Hrun)
    as (w & Hmain & Hcw & How & Hdw).
  exists w. split; [exact Hmain|].
  cbn in Hcalls5, Hdl5, Hout5.
  rewrite Hcw, How, Hdw, Hcalls5, Hdl5, Hout5, Hcalls1, Hdl1, Hout1,
    Hcalls, Hout, Hn.
  rewrite !writes_of_app, !in_app_iff.
  destruct (op_created S (n_ops w1)); cbn; repeat split; auto 10.
Qed.

(** X13. A state change to Unconnected falls under the same branch as Failed: the
    error is printed and the loop stops with 1. *)
Theorem unconnected_state_stops_loop_with_1 (name : cstr) (w : World)
    (rest : list loop_event) (fuel : nat) :
  state_cb w = Some name ->
  quit_req w = None ->
  poll_error S (iter w) = false ->
  pending w = EvState PA_CONTEXT_UNCONNECTED :: rest ->
  exists w',
    pa_mainloop_run S (2 + fuel) w = LQuit 1 w' /\
    stdout w' = stdout w ++ [("connection failure: " ++ errstr S ++ nl)%string] /\
    calls w' = calls w /\
    pending w' = rest.
Proof.
  intros Hcb Hquit Hpoll Hpend.
  change (2 + fuel)%nat with (Datatypes.S (Datatypes.S fuel)).
  rewrite (run_step _ _ _ _ Hquit Hpoll Hpend).
  run_cb. rewrite Hcb. cbn.
  rewrite run_quit with (retval := 1) by reflexivity.
  eexists. split; [reflexivity|]. cbn. repeat split; reflexivity.
Qed.

(** X10. A handshake that stalls before Ready: the program sets no timeout, so
    once the notifications it has are delivered it blocks in the loop, having
    requested nothing and printed nothing. *)
Theorem stalled_handshake_blocks (fuel : nat) (prog name : string) :
  mainloop_new_ok S = true -> context_new_ok S = true -> connect_ok S = true ->
  (forall k, poll_error S k = false) ->
  Forall quiet (map EvState (handshake S)) ->
  exists w,
    main S (length (handshake S) + 1 + fuel) [prog; name] = Blocked w /\
    calls w = setup_calls ++ [c_context_set_state_callback (Some name)] /\
    delivered w = map EvState (handshake S) /\
    stdout w = [] /\ quit_req w = None.
Proof.
  intros Hm Hc Hk Hpoll Hquiet.
  rewrite (main_enters_loop _ prog name Hm Hc Hk).
  rewrite <- (length_map EvState (handshake S)), <- Nat.add_assoc.
  rewrite (run_quiet (map EvState (handshake S)) [])
    by (auto; cbn; rewrite app_nil_r; reflexivity).
  unfold pa_mainloop_run. cbn. rewrite Hpoll. cbn.
  eexists. split; [reflexivity|]. cbn. repeat split; reflexivity.
Qed.

(** Quiet notifications, then an iteration that fails in poll. *)
Lemma run_quiet_then_error (q : list loop_event) :
  forall (rest : list loop_event) (w : World) (fuel : nat),
    Forall quiet q ->
    quit_req w = None ->
    pending w = q ++ rest ->
    (forall j, (j < length q)%nat -> poll_error S (iter w + j) = false) ->
    poll_error S (iter w + length q) = true ->
    pa_mainloop_run S (length q + Datatypes.S fuel) w =
    LError (after_quiet q rest w).
Proof.
  induction q as [|ev q IH]; intros rest w fuel Hq Hquit Hpend Hok Hbad.
  - cbn in Hbad. rewrite Nat.add_0_r in Hbad.
    unfold pa_mainloop_run. cbn. rewrite Hquit, Hbad.
    destruct w; cbn in *; subst; unfold after_quiet; cbn.
    rewrite app_nil_r. reflexivity.
  - inversion Hq as [|ev' q' Hev Hq']; subst.
    cbn [length Nat.add].
    assert (H0 : poll_error S (iter w) = false).
    { rewrite <- (Nat.add_0_r (iter w)). apply Hok. cbn. lia. }
    rewrite (run_step _ _ ev (q ++ rest) Hquit H0 Hpend).
    rewrite (dispatch_quiet _ _ Hev).
    rewrite (IH rest); cbn; auto.
    + f_equal. unfold after_quiet, take_event; cbn.
      rewrite <- app_assoc. f_equal. lia.
    + intros j Hj. replace (Datatypes.S (iter w + j)) with (iter w + Datatypes.S j)%nat by lia.
      apply Hok. cbn. lia.
    + replace (Datatypes.S (iter w + length q)) with (iter w + Datatypes.S (length q))%nat by lia.
      exact Hbad.
Qed.

(** X9. The loop itself fails: [main] prints its message and returns 1 at once,
    without the teardown: no disconnect, and neither object released. *)
Theorem loop_failure_exits_1 (fuel : nat) (prog name : string)
    (pre post : list pa_context_state_t) :
  mainloop_new_ok S = true -> context_new_ok S = true -> connect_ok S = true ->
  handshake S = pre ++ post ->
  Forall quiet (map EvState pre) ->
  (forall j, (j < length pre)%nat -> poll_error S j = false) ->
  poll_error S (length pre) = true ->
  exists w,
    main S (length pre + 1 + fuel) [prog; name] = Returned 1 w /\
    stdout w = [("pa_mainloop_run() failed." ++ nl)%string] /\
    calls w = setup_calls ++ [c_context_set_state_callback (Some name)] /\
    delivered w = map EvState pre.
Proof.
  intros Hm Hc Hk Hhs Hpre Hok Hbad.
  rewrite (main_enters_loop _ prog name Hm Hc Hk).
  rewrite <- (length_map EvState pre), <- Nat.add_assoc.
  rewrite (run_quiet_then_error (map EvState pre) (map EvState post))
    by (rewrite ?length_map; cbn; auto; rewrite Hhs, map_app; reflexivity).
  unfold main_after_run. run_cb.
  eexists. split; [reflexivity|]. cbn. repeat split; reflexivity.
Qed.


(** The records of the enumeration when every write operation is created,
    whatever the writes complete with: the completions queue up in the order
    of the writes. *)
Lemma run_records_issued (name : cstr) (rs : list pa_ext_stream_restore_info) :
  forall (rest : list loop_event) (w : World) (fuel : nat),
    (forall k, poll_error S k = false) ->
    quit_req w = None ->
    pending w = map (fun r => EvRestore (Some r) 0 name) rs ++ rest ->
    (forall k, (n_ops w <= k < n_ops w + length rs)%nat -> op_created S k = true) ->
    exists w',
      pa_mainloop_run S (length rs + fuel) w = pa_mainloop_run S fuel w' /\
      quit_req w' = None /\ state_cb w' = state_cb w /\ stdout w' = stdout w /\
      pending w' = rest ++
        map (fun k => EvSuccess (op_success S k)) (seq (n_ops w) (length rs)) /\
      calls w' = calls w ++ flat_map
        (fun rk => [c_ext_stream_restore_write PA_UPDATE_REPLACE
                      (retarget name (fst rk)) 1 1;
                    c_operation_unref (snd rk)])
        (combine rs (seq (n_ops w) (length rs))) /\
      records_delivered (delivered w') = records_delivered (delivered w) ++ rs /\
      n_ops w' = (n_ops w + length rs)%nat.
Proof.
  induction rs as [|r rs IH]; intros rest w fuel Hpoll Hquit Hpend Hops.
  - exists w. cbn in Hpend. cbn. rewrite !app_nil_r, Nat.add_0_r.
    repeat split; auto.
  - cbn [map app] in Hpend. cbn [length Nat.add].
    rewrite (run_step _ _ _ _ Hquit (Hpoll _) Hpend).
    set (w0 := take_event (EvRestore (Some r) 0 name)
                 (map (fun r => EvRestore (Some r) 0 name) rs ++ rest) w).
    change (dispatch S (EvRestore (Some r) 0 name) w0)
      with (stream_restore_cb S (Some r) 0 name w0).
    destruct (stream_restore_cb_record r name w0)
      as (w1 & Hd & Hc & Hp & Hout & Hq & Hcb & Hdl & _ & _ & Hn).
    assert (Hop : op_created S (n_ops w) = true) by (apply Hops; cbn; lia).
    change (n_ops w0) with (n_ops w) in *.
    rewrite Hop in Hc, Hp, Hout.
    rewrite Hd.
    destruct (IH (rest ++ [EvSuccess (op_success S (n_ops w))]) w1 fuel)
      as (w' & Hrun & Hq' & Hcb' & Hout' & Hp' & Hc' & Hrd & Hn'); auto.
    + rewrite Hq. exact Hquit.
    + rewrite Hp. subst w0. cbn. rewrite <- app_assoc. reflexivity.
    + intros k Hk'. apply Hops. cbn. lia.
    + exists w'.
      split; [exact Hrun|].
      split; [exact Hq'|].
      split; [rewrite Hcb', Hcb; reflexivity|].
      split; [rewrite Hout', Hout; subst w0; cbn; apply app_nil_r|].
      split; [rewrite Hp', Hn, <- app_assoc; reflexivity|].
      split; [rewrite Hc', Hc, Hn; subst w0; cbn; rewrite <- app_assoc;
              reflexivity|].
      split.
      * rewrite Hrd, Hdl. subst w0. cbn.
        rewrite records_delivered_app, <- app_assoc. reflexivity.
      * rewrite Hn', Hn. cbn. lia.
Qed.

Lemma writes_of_issued (name : cstr) (rs : list pa_ext_stream_restore_info) :
  forall ks : list nat,
    length ks = length rs ->
    writes_of (flat_map
      (fun rk => [c_ext_stream_restore_write PA_UPDATE_REPLACE
                    (retarget name (fst rk)) 1 1;
                  c_operation_unref (snd rk)])
      (combine rs ks)) = map (retarget name) rs.
Proof.
  induction rs as [|r rs IH]; intros ks Hlen; [reflexivity|].
  destruct ks as [|k ks]; [discriminate|].
  cbn. rewrite IH by (cbn in Hlen; lia). reflexivity.
Qed.

(** X7. The service reports that a write failed.  Every record has been written
    by then, the writes ahead of the failed one have completed, and the end of
    the list has requested the drain; the program prints the error and
    returns 1, and the completions behind the failed one are not delivered. *)
Theorem write_rejected_exits_1 (prog name : string)
    (pre : list pa_context_state_t) (j : nat) :
  mainloop_new_ok S = true -> context_new_ok S = true -> connect_ok S = true ->
  (forall k, poll_error S k = false) ->
  handshake S = pre ++ [PA_CONTEXT_READY] ->
  Forall quiet (map EvState pre) ->
  enum_fails S = false ->
  (forall k, (k < 2 + length (records S))%nat -> op_created S k = true) ->
  op_success S 0 <> 0 ->
  (j < length (records S))%nat ->
  (forall i, (i < j)%nat -> op_success S (2 + i) <> 0) ->
  op_success S (2 + j) = 0 ->
  exists w,
    main S (length pre + length (records S) + j + 5) [prog; name] = Returned 1 w /\
    writes_of (calls w) = map (retarget (Some name)) (records S) /\
    records_delivered (delivered w) = records S /\
    In c_context_drain (calls w) /\
    stdout w = [(errstr S ++ nl)%string].
Proof.
  intros Hm Hc Hk Hpoll Hhs Hpre Henum Hops Hs0 Hj Hbefore Hfail.
  set (N := length (records S)) in *.
  destruct (run_to_ready (N + j + 4) name pre [] Hpoll Hhs Hpre)
    as (w0 & Hrun & Hst & Hcb0 & Hp & Hq & Hout & Hcalls & Hdl & Hn).
  replace (length pre + Datatypes.S (N + j + 4))%nat
    with (length pre + N + j + 5)%nat in Hrun by lia.
  assert (Hop0 : op_created S (n_ops w0) = true) by (rewrite Hn; apply Hops; lia).
  assert (Hop1 : op_created S (Datatypes.S (n_ops w0)) = true)
    by (rewrite Hn; apply Hops; lia).
  destruct (ready_both_created (Some name) w0 Hst Hop0 Hop1)
    as (w1 & Hcb & Hcalls1 & Hp1 & Hq1 & Hout1 & Hcb1 & Hdl1 & Hn1).
  rewrite Hcb in Hrun.
  unfold enumeration in Hp1. rewrite Henum, Hp, Hn in Hp1. cbn in Hp1.
  (* the default sink is set *)
  assert (Hqz : Forall quiet [EvSuccess (op_success S 0)])
    by (constructor; [exact Hs0|constructor]).
  replace (N + j + 4)%nat
    with (length [EvSuccess (op_success S 0)] + (N + (j + 3)))%nat in Hrun
    by (cbn; lia).
  rewrite (run_quiet [EvSuccess (op_success S 0)] _ w1 _
             Hqz Hpoll (eq_trans Hq1 Hq) Hp1) in Hrun.
  (* the records *)
  match type of Hrun with
  | _ = pa_mainloop_run S _ ?w2 =>
      destruct (run_records_issued (Some name) (records S)
                  [EvRestore None 1 (Some name)] w2 (j + 3) Hpoll
                  (eq_trans Hq1 Hq) eq_refl)
        as (w3 & Hrun3 & Hq3 & Hcb3 & Hout3 & Hp3 & Hcalls3 & Hrd3 & Hn3)
  end.
  { intros k Hk'. apply Hops. cbn in Hk'. rewrite Hn1, Hn in Hk'. fold N in Hk'. lia. }
  fold N in Hrun3, Hp3, Hcalls3, Hn3. rewrite Hrun3 in Hrun.
  cbn in Hcb3, Hout3, Hp3, Hcalls3, Hrd3, Hn3.
  rewrite Hn1, Hn in Hp3, Hcalls3.
  (* the end-of-list marker *)
  replace (j + 3)%nat with (Datatypes.S (j + 2)) in Hrun by lia.
  rewrite (run_step _ _ _ _ Hq3 (Hpoll _) Hp3) in Hrun.
  unfold dispatch, stream_restore_cb in Hrun. cbn [Z.eqb negb] in Hrun.
  match type of Hrun with
  | context [drain S ?w4] =>
      destruct (drain_runs w4)
        as (w5 & Hd & Hcalls5 & Hp5 & Hq5 & Hout5 & _ & Hdl5 & _)
  end.
  rewrite Hd in Hrun. cbn in Hcalls5, Hp5, Hq5, Hout5, Hdl5.
  (* the completions of the writes, up to the one that failed *)
  set (compl := fun k => EvSuccess (op_success S k)) in *.
  assert (Hsplit : map compl (seq 2 N) =
                   map compl (seq 2 j) ++
                   EvSuccess 0 :: map compl (seq (3 + j) (N - Datatypes.S j))).
  { replace N with (j + Datatypes.S (N - Datatypes.S j))%nat at 1 by lia.
    rewrite seq_app, map_app. cbn [seq map]. unfold compl at 2.
    rewrite Hfail. reflexivity. }
  assert (Hquiet : Forall quiet (map compl (seq 2 j))).
  { apply Forall_forall. intros ev Hin. apply in_map_iff in Hin.
    destruct Hin as (k & <- & Hin). apply in_seq in Hin. cbn.
    replace k with (2 + (k - 2))%nat by lia. apply Hbefore. lia. }
  rewrite Hsplit, <- app_assoc in Hp5. cbn [app] in Hp5.
  replace (j + 2)%nat with (length (map compl (seq 2 j)) + 2)%nat in Hrun
    by (rewrite length_map, length_seq; reflexivity).
  rewrite (run_quiet _ _ w5 2 Hquiet Hpoll (eq_trans Hq5 Hq3) Hp5) in Hrun.
  match type of Hrun with
  | _ = pa_mainloop_run S _ ?w6 =>
      destruct (run_completion_failed w6 _ 0 (eq_trans Hq5 Hq3) (Hpoll _) eq_refl)
        as (w7 & Hrun7 & Hout7 & Hcalls7 & _ & Hdl7)
  end.
  rewrite Hrun7 in Hrun.
  destruct (main_returns_quit _ prog name 1 w7 Hm Hc Hk Hrun)
    as (w & Hmain & Hcw & How & Hdw).
  exists w. split; [exact Hmain|].
  cbn in Hout7, Hcalls7, Hdl7.
  rewrite Hcw, How, Hdw, Hcalls7, Hout7, Hdl7, Hcalls5, Hout5, Hdl5,
    Hcalls3, Hout3, Hout1, Hout.
  rewrite !writes_of_app, !records_delivered_app, !in_app_iff.
  rewrite (writes_of_issued (Some name) (records S))
    by (rewrite length_seq; reflexivity).
  rewrite Hcalls1, Hcalls, !writes_of_app, Hrd3, Hdl1, Hdl.
  rewrite !records_delivered_app, (records_delivered_quiet _ Hpre),
    (records_delivered_quiet _ Hquiet).
  destruct (op_created S (n_ops w3)); cbn; rewrite ?app_nil_r;
    repeat split; auto 10.
Qed.


End Loop.

(** ** The theorems at work

    Each theorem that has a hypothesis is applied to one of the sample
    services, and the two places where the program departs from its
    description are evaluated. *)

(** C1. A refused write does not stop the loop.  The service lists one
    record and cannot create the write operation for it: the program prints
    the failure, goes on to the end-of-list marker, drains, disconnects and
    returns 0, where a write the service reports as failed returns 1. *)
Theorem write_refused_exits_0 :
  exists w,
    main svc_write_refused 9 ["paswitch"; "hdmi"] = Returned 0 w /\
    records_delivered (delivered w) = [player] /\
    stdout w = [("pa_ext_stream_restore_write() failed: Too large" ++ nl)%string] /\
    quit_req w = Some 0.
Proof.
  eexists. split; [vm_compute; reflexivity|].
  vm_compute. repeat split; reflexivity.
Qed.

(** C8, as the claim states it, fails: when [pa_context_connect] fails,
    [main] returns 1 with the main loop and the context created and neither
    released. *)
Lemma connect_refused_releases_nothing :
  exists w,
    main svc_connect_refused 0 ["paswitch"; "hdmi"] = Returned 1 w /\
    count is_mainloop_new (calls w) = 1%nat /\
    count is_context_new (calls w) = 1%nat /\
    count is_mainloop_free (calls w) = 0%nat /\
    count is_context_unref (calls w) = 0%nat /\
    ~ released_once svc_connect_refused (calls w).
Proof.
  eexists. split; [vm_compute; reflexivity|].
  vm_compute. repeat split; try reflexivity.
  intros [H _]. discriminate H.
Qed.

(** Two records under the same stream name: two writes, in order. *)
Lemma every_delivered_record_written_once_witness :
  exists w,
    outcome_world (main svc_ok 12 ["paswitch"; "hdmi"]) = Some w /\
    records_delivered (delivered w) = [player; player_muted] /\
    length (writes_of (calls w)) = 2%nat /\
    Forall2 (migrated "hdmi") (writes_of (calls w))
      (records_delivered (delivered w)).
Proof.
  eexists. split; [vm_compute; reflexivity|].
  split; [vm_compute; reflexivity|]. split; [vm_compute; reflexivity|].
  apply (every_delivered_record_written_once svc_ok 12 "paswitch" "hdmi").
  vm_compute. reflexivity.
Defined.

(** Ready, on a connection that has already requested three operations. *)
Lemma ready_issues_both_requests_witness :
  state_cb w_ready = Some (Some "hdmi") /\
  op_created svc_ok (n_ops w_ready) = true /\
  exists w',
    dispatch svc_ok (EvState PA_CONTEXT_READY) w_ready = Ok tt w' /\
    calls w' = calls w_ready ++
      [c_context_set_default_sink (Some "hdmi"); c_operation_unref 3%nat;
       c_ext_stream_restore_read (Some "hdmi"); c_operation_unref 4%nat] /\
    delivered w' = delivered w_ready /\
    pending w' = pending w_ready ++ [EvSuccess 1] ++
      enumeration svc_ok (Some "hdmi").
Proof.
  split; [reflexivity|]. split; [reflexivity|].
  exact (ready_issues_both_requests svc_ok (Some "hdmi") w_ready eq_refl eq_refl).
Defined.


(** A drain with one successful write still to be completed. *)
Lemma drain_disconnects_then_quit_0_witness :
  state_cb w_ready = Some (Some "hdmi") /\
  quit_req w_ready = None /\
  Forall quiet (pending w_ready) /\
  exists w1 w2,
    drain svc_ok w_ready = Ok tt w1 /\
    pa_mainloop_run svc_ok 4 w1 = LQuit 0 w2 /\
    ctx_state w2 = PA_CONTEXT_TERMINATED.
Proof.
  assert (Hq : Forall quiet (pending w_ready)).
  { constructor; [discriminate|constructor]. }
  split; [reflexivity|]. split; [reflexivity|]. split; [exact Hq|].
  destruct (drain_disconnects_then_quit_0 svc_ok (Some "hdmi") w_ready
              eq_refl eq_refl (fun _ => eq_refl) Hq)
    as (w1 & w2 & Hd & _ & Hrun & Hst & _).
  exists w1, w2. repeat split; assumption.
Defined.

(** The transport breaks with a completion still pending. *)
Lemma failed_state_stops_loop_with_1_witness :
  state_cb w_failing = Some (Some "hdmi") /\
  quit_req w_failing = None /\
  pending w_failing = [EvState PA_CONTEXT_FAILED; EvSuccess 1] /\
  exists w',
    pa_mainloop_run svc_unreachable 2 w_failing = LQuit 1 w' /\
    stdout w' = [("connection failure: Connection refused" ++ nl)%string] /\
    pending w' = [EvSuccess 1].
Proof.
  split; [reflexivity|]. split; [reflexivity|]. split; [reflexivity|].
  destruct (failed_state_stops_loop_with_1 svc_unreachable (Some "hdmi")
              w_failing [EvSuccess 1] 0 eq_refl eq_refl eq_refl eq_refl)
    as (w' & Hrun & Hout & _ & Hp & _).
  exists w'. repeat split; assumption.
Defined.

(** Two arguments: the text printed, in full. *)
Lemma wrong_argument_count_prints_usage_witness :
  length ["paswitch"; "hdmi"; "extra"] <> 2%nat /\
  exists w,
    main svc_ok 0 ["paswitch"; "hdmi"; "extra"] = Returned 0 w /\
    stdout w =
      [("PulseAudio commandline sink switcher" ++ String "010" EmptyString ++
        "Copyright (C) 2012 by Tomaz Solc <tomaz.solc@tablix.org>" ++
        String "010" EmptyString ++ String "010" EmptyString ++
        "USAGE: paswitch [ sink ]" ++ String "010" EmptyString)%string] /\
    calls w = [] /\
    ctx_state w = PA_CONTEXT_UNCONNECTED.
Proof.
  assert (H : length ["paswitch"; "hdmi"; "extra"] <> 2%nat) by discriminate.
  split; [exact H|].
  exact (wrong_argument_count_prints_usage svc_ok 0 ["paswitch"; "hdmi"; "extra"] H).
Defined.

(** The unreachable service: exit code 1, and both objects released. *)
Lemma quit_path_releases_each_once_witness :
  exists w,
    main svc_unreachable 3 ["paswitch"; "hdmi"] = Returned 1 w /\
    quit_req w <> None /\
    exists prog name run,
      ["paswitch"; "hdmi"] = [prog; name] /\
      quit_req w = Some 1 /\
      calls w = setup_calls ++ [c_context_set_state_callback (Some name)]
                ++ run ++ teardown_calls /\
      Forall (fun c => lifecycle c = false) run /\
      count is_context_unref (calls w) = 1%nat /\
      count is_mainloop_free (calls w) = 1%nat /\
      released_once svc_unreachable (calls w).
Proof.
  eexists. split; [vm_compute; reflexivity|].
  split; [vm_compute; discriminate|].
  eapply (quit_path_releases_each_once svc_unreachable 3 ["paswitch"; "hdmi"] 1).
  - vm_compute. reflexivity.
  - vm_compute. discriminate.
Defined.

(** The two writes of the sample service. *)
Lemma every_write_replaces_and_applies_witness :
  exists w,
    outcome_world (main svc_ok 12 ["paswitch"; "hdmi"]) = Some w /\
    length (writes_of (calls w)) = 2%nat /\
    Forall write_flags_ok (calls w).
Proof.
  eexists. split; [vm_compute; reflexivity|].
  split; [vm_compute; reflexivity|].
  apply (every_write_replaces_and_applies svc_ok 12 ["paswitch"; "hdmi"]).
  vm_compute. reflexivity.
Defined.

(** The end-of-list marker, with a record and with NULL. *)
Lemma stream_restore_cb_eol_ignores_info_witness :
  1 <> 0 /\
  stream_restore_cb svc_ok (Some player) 1 (Some "hdmi") w_ready =
    drain svc_ok w_ready /\
  stream_restore_cb svc_ok None 1 (Some "hdmi") w_ready = drain svc_ok w_ready /\
  exists w', drain svc_ok w_ready = Ok tt w' /\
             writes_of (calls w') = writes_of (calls w_ready).
Proof.
  assert (H : 1 <> 0) by discriminate.
  split; [exact H|].
  exact (stream_restore_cb_eol_ignores_info svc_ok (Some player) 1
           (Some "hdmi") w_ready H).
Defined.

(** *** Beyond the claims *)

(** The sample service migrates both of its records. *)
Lemma main_migrates_every_record_witness :
  handshake svc_ok =
    [PA_CONTEXT_AUTHORIZING; PA_CONTEXT_SETTING_NAME] ++ [PA_CONTEXT_READY] /\
  exists w,
    main svc_ok 12 ["paswitch"; "hdmi"] = Returned 0 w /\
    writes_of (calls w) =
      [retarget (Some "hdmi") player; retarget (Some "hdmi") player_muted] /\
    records_delivered (delivered w) = [player; player_muted] /\
    stdout w = [].
Proof.
  split; [reflexivity|].
  apply (main_migrates_every_record svc_ok "paswitch" "hdmi"
           [PA_CONTEXT_AUTHORIZING; PA_CONTEXT_SETTING_NAME]);
    try reflexivity.
  - repeat constructor.
  - intros k _. split; [reflexivity|discriminate].
Defined.

(** The handshake of the unreachable service ends in Failed. *)
Lemma main_unreachable_exits_1_witness :
  handshake svc_unreachable = [PA_CONTEXT_AUTHORIZING] ++ PA_CONTEXT_FAILED :: [] /\
  exists w,
    main svc_unreachable 3 ["paswitch"; "hdmi"] = Returned 1 w /\
    stdout w = [("connection failure: Connection refused" ++ nl)%string] /\
    writes_of (calls w) = [].
Proof.
  split; [reflexivity|].
  apply (main_unreachable_exits_1 svc_unreachable "paswitch" "hdmi"
           [PA_CONTEXT_AUTHORIZING] []);
    try reflexivity.
  repeat constructor.
Defined.

(** The context cannot be created: the property list is left behind. *)
Lemma setup_failure_exits_1_witness :
  mainloop_new_ok svc_no_context && context_new_ok svc_no_context
    && connect_ok svc_no_context = false /\
  exists w,
    main svc_no_context 5 ["paswitch"; "hdmi"] = Returned 1 w /\
    state_cb w = None /\ delivered w = [] /\
    stdout w = [("pa_context_new() failed." ++ nl)%string;
                ("can't get pulseaudio context." ++ nl)%string] /\
    calls w =
      [c_mainloop_new; c_mainloop_get_api; c_proplist_new;
       c_proplist_sets PA_PROP_APPLICATION_NAME "Commandline sink switcher";
       c_proplist_sets PA_PROP_APPLICATION_ID "org.tablix.paswitch";
       c_context_new_with_proplist].
Proof.
  split; [reflexivity|].
  exact (setup_failure_exits_1 svc_no_context 5 "paswitch" "hdmi" eq_refl).
Defined.

(** No operation can be created: the run ends on the first request. *)
Lemma first_request_refused_exits_1_witness :
  op_created svc_no_operation 0 = false /\
  exists w,
    main svc_no_operation 4 ["paswitch"; "hdmi"] = Returned 1 w /\
    stdout w =
      [("pa_context_set_default_sink() failed: Too large" ++ nl)%string;
       ("set_default_sink() failed" ++ nl)%string] /\
    calls w = setup_calls ++
      [c_context_set_state_callback (Some "hdmi");
       c_context_set_default_sink (Some "hdmi")] ++ teardown_calls.
Proof.
  split; [reflexivity|].
  apply (first_request_refused_exits_1 svc_no_operation "paswitch" "hdmi"
           [PA_CONTEXT_AUTHORIZING; PA_CONTEXT_SETTING_NAME] []);
    try reflexivity.
  repeat constructor.
Defined.

(** The default sink is requested, the enumeration is refused. *)
Lemma second_request_refused_exits_1_witness :
  op_created svc_no_enumeration 0 = true /\
  op_created svc_no_enumeration 1 = false /\
  exists w,
    main svc_no_enumeration 4 ["paswitch"; "hdmi"] = Returned 1 w /\
    stdout w =
      [("pa_ext_stream_restore_read() failed: Too large" ++ nl)%string;
       ("set_default_sink() failed" ++ nl)%string] /\
    calls w = setup_calls ++
      [c_context_set_state_callback (Some "hdmi");
       c_context_set_default_sink (Some "hdmi"); c_operation_unref 0%nat;
       c_ext_stream_restore_read (Some "hdmi")] ++ teardown_calls /\
    writes_of (calls w) = [].
Proof.
  split; [reflexivity|]. split; [reflexivity|].
  apply (second_request_refused_exits_1 svc_no_enumeration "paswitch" "hdmi"
           [PA_CONTEXT_AUTHORIZING; PA_CONTEXT_SETTING_NAME] []);
    try reflexivity.
  repeat constructor.
Defined.

(** The service rejects the sink name. *)
Lemma default_sink_rejected_exits_1_witness :
  op_success svc_sink_rejected 0 = 0 /\
  exists w,
    main svc_sink_rejected 5 ["paswitch"; "hdmi"] = Returned 1 w /\
    stdout w = [("No such entity" ++ nl)%string] /\
    calls w = setup_calls ++
      [c_context_set_state_callback (Some "hdmi");
       c_context_set_default_sink (Some "hdmi"); c_operation_unref 0%nat;
       c_ext_stream_restore_read (Some "hdmi"); c_operation_unref 1%nat]
      ++ teardown_calls /\
    records_delivered (delivered w) = [].
Proof.
  split; [reflexivity|].
  apply (default_sink_rejected_exits_1 svc_sink_rejected "paswitch" "hdmi"
           [PA_CONTEXT_AUTHORIZING; PA_CONTEXT_SETTING_NAME]);
    try reflexivity.
  repeat constructor.
Defined.

(** Three records, and the second write is reported as failed. *)
Lemma write_rejected_exits_1_witness :
  op_success svc_write_rejected (2 + 1) = 0 /\
  exists w,
    main svc_write_rejected 11 ["paswitch"; "hdmi"] = Returned 1 w /\
    writes_of (calls w) =
      map (retarget (Some "hdmi")) [player; player_muted; player] /\
    records_delivered (delivered w) = [player; player_muted; player] /\
    In c_context_drain (calls w) /\
    stdout w = [("No such entity" ++ nl)%string].
Proof.
  split; [reflexivity|].
  apply (write_rejected_exits_1 svc_write_rejected "paswitch" "hdmi"
           [PA_CONTEXT_AUTHORIZING; PA_CONTEXT_SETTING_NAME] 1);
    try reflexivity.
  - repeat constructor.
  - discriminate.
  - repeat constructor.
  - intros [|i] Hi; [discriminate|].
    exfalso. inversion Hi as [|m Hi' E]. inversion Hi'.
Defined.

(** The enumeration error of the sample service. *)
Lemma enumeration_error_exits_0_witness :
  enum_fails svc_enum_error = true /\
  exists w,
    main svc_enum_error 8 ["paswitch"; "hdmi"] = Returned 0 w /\
    writes_of (calls w) = [] /\
    In c_context_drain (calls w) /\
    In (EvRestore None (-1) (Some "hdmi")) (delivered w) /\
    stdout w = [].
Proof.
  split; [reflexivity|].
  apply (enumeration_error_exits_0 svc_enum_error "paswitch" "hdmi"
           [PA_CONTEXT_AUTHORIZING; PA_CONTEXT_SETTING_NAME]);
    try reflexivity.
  - repeat constructor.
  - discriminate.
Defined.

(** Poll fails in the second iteration, before Ready is delivered. *)
Lemma loop_failure_exits_1_witness :
  poll_error svc_poll_fails 1 = true /\
  exists w,
    main svc_poll_fails 2 ["paswitch"; "hdmi"] = Returned 1 w /\
    stdout w = [("pa_mainloop_run() failed." ++ nl)%string] /\
    calls w = setup_calls ++ [c_context_set_state_callback (Some "hdmi")] /\
    delivered w = [EvState PA_CONTEXT_AUTHORIZING].
Proof.
  split; [reflexivity|].
  apply (loop_failure_exits_1 svc_poll_fails 0 "paswitch" "hdmi"
           [PA_CONTEXT_AUTHORIZING] [PA_CONTEXT_SETTING_NAME; PA_CONTEXT_READY]);
    try reflexivity.
  - repeat constructor.
  - intros [|j] Hj; [reflexivity|].
    exfalso. inversion Hj as [|m Hj' E]. inversion Hj'.
Defined.

(** The stalled service, with any fuel beyond its two notifications. *)
Lemma stalled_handshake_blocks_witness :
  Forall quiet (map EvState (handshake svc_stalled)) /\
  exists w,
    main svc_stalled (2 + 1 + 40) ["paswitch"; "hdmi"] = Blocked w /\
    calls w = setup_calls ++ [c_context_set_state_callback (Some "hdmi")] /\
    delivered w = map EvState (handshake svc_stalled) /\
    stdout w = [] /\ quit_req w = None.
Proof.
  assert (H : Forall quiet (map EvState (handshake svc_stalled)))
    by (repeat constructor).
  split; [exact H|].
  exact (stalled_handshake_blocks svc_stalled 40 "paswitch" "hdmi"
           eq_refl eq_refl eq_refl (fun _ => eq_refl) H).
Defined.

(** A run that returns 1 before the loop is entered. *)
Lemma exit_status_0_or_1_witness :
  exists w,
    main svc_no_mainloop 3 ["paswitch"; "hdmi"] = Returned 1 w /\
    (1 = 0 \/ 1 = 1).
Proof.
  eexists. split; [vm_compute; reflexivity|].
  eapply (exit_status_0_or_1 svc_no_mainloop 3 ["paswitch"; "hdmi"] 1).
  vm_compute. reflexivity.
Defined.

(** The run of the sample service returns 0. *)
Lemma exit_0_after_end_of_list_witness :
  ~ In PA_CONTEXT_TERMINATED (handshake svc_ok) /\
  exists w,
    main svc_ok 12 ["paswitch"; "hdmi"] = Returned 0 w /\
    In c_context_drain (calls w) /\ Exists is_eol (delivered w).
Proof.
  assert (H : ~ In PA_CONTEXT_TERMINATED (handshake svc_ok)).
  { cbn. intros [E|[E|[E|[]]]]; discriminate E. }
  split; [exact H|].
  eexists. split; [vm_compute; reflexivity|].
  apply (exit_0_after_end_of_list svc_ok 12 "paswitch" "hdmi" _ H).
  vm_compute. reflexivity.
Defined.

(** Unconnected, with a completion still pending. *)
Lemma unconnected_state_stops_loop_with_1_witness :
  pending w_unconnecting = [EvState PA_CONTEXT_UNCONNECTED; EvSuccess 1] /\
  exists w',
    pa_mainloop_run svc_ok 2 w_unconnecting = LQuit 1 w' /\
    stdout w' = [("connection failure: OK" ++ nl)%string] /\
    calls w' = calls w_unconnecting /\
    pending w' = [EvSuccess 1].
Proof.
  split; [reflexivity|].
  exact (unconnected_state_stops_loop_with_1 svc_ok (Some "hdmi")
           w_unconnecting [EvSuccess 1] 0 eq_refl eq_refl eq_refl eq_refl).
Defined.
